(** * Shallow embedding of reg-radar's ingestion core and health checks.

    Sources embedded:
    - [run_save.py]: [normalize_url], [save_items] (upsert by [doc_url]);
    - [pipeline.py]: [normalize_country], [looks_like_http],
      [candidate_urls] (with [urllib.parse.urlparse] and CPython's set),
      [fetch_first_ok], [is_pdf_url], [domain_of], [want_link_for_domain],
      [collect_rss] and [collect_html_async] (feedparser, [urljoin] and the
      HTML parser as parameters);
    - [alerts.py]: [check_silent_sources], [parse_overrides] (with [int])
      and [main].

    Python strings are modelled as [string]: each [ascii] is read as the
    Unicode code point 0..255 (Latin-1), so [str.strip], [str.lower] and the
    case-insensitive regex follow Python on that range. *)

From Stdlib Require Import String Ascii List NArith ZArith Lia Bool Permutation.
Import ListNotations.

Open Scope bool_scope.

(* ================================================================== *)
(** ** Python string primitives *)

Module PyStr.

Local Open Scope string_scope.

(** [str.isspace] on code points 0..255: \t \n \v \f \r, \x1c-\x1f,
    space, \x85 and \xa0. *)
Definition is_py_space (c : ascii) : bool :=
  let n := nat_of_ascii c in
  (Nat.leb 9 n && Nat.leb n 13) || (Nat.leb 28 n && Nat.leb n 32)
  || Nat.eqb n 133 || Nat.eqb n 160.

Definition is_slash (c : ascii) : bool := Ascii.eqb c "/"%char.

Fixpoint lstrip_by (p : ascii -> bool) (s : string) : string :=
  match s with
  | EmptyString => EmptyString
  | String c s' => if p c then lstrip_by p s' else s
  end.

Fixpoint rstrip_by (p : ascii -> bool) (s : string) : string :=
  match s with
  | EmptyString => EmptyString
  | String c s' =>
      let r := rstrip_by p s' in
      if String.eqb r EmptyString && p c then EmptyString else String c r
  end.

(** [s.strip()] *)
Definition py_strip (s : string) : string :=
  rstrip_by is_py_space (lstrip_by is_py_space s).

(** [str.lower] on code points 0..255: A-Z and U+00C0..U+00DE except
    U+00D7 move up by 32. *)
Definition lower_char (c : ascii) : ascii :=
  let n := nat_of_ascii c in
  if (Nat.leb 65 n && Nat.leb n 90)
     || (Nat.leb 192 n && Nat.leb n 222 && negb (Nat.eqb n 215))
  then ascii_of_nat (n + 32) else c.

Fixpoint py_lower (s : string) : string :=
  match s with
  | EmptyString => EmptyString
  | String c s' => String (lower_char c) (py_lower s')
  end.

(** [s.startswith(pre)] *)
Definition startswith (s pre : string) : bool := String.prefix pre s.

(** [sub in s] *)
Definition py_in (sub s : string) : bool :=
  match String.index 0 sub s with Some _ => true | None => false end.

(** [s.endswith(suf)] *)
Definition endswith (s suf : string) : bool :=
  let n := String.length s in
  let m := String.length suf in
  Nat.leb m n && String.eqb (String.substring (n - m) m s) suf.

(** [s.find(c)] for a one-character needle, [-1] when absent. *)
Definition find_char (c : ascii) (s : string) : Z :=
  match String.index 0 (String c EmptyString) s with
  | Some n => Z.of_nat n
  | None => (-1)%Z
  end.

(** [s.replace(old, new)] for a one-character [old]. *)
Fixpoint replace_char (c : ascii) (new s : string) : string :=
  match s with
  | EmptyString => EmptyString
  | String d s' =>
      if Ascii.eqb c d then new ++ replace_char c new s'
      else String d (replace_char c new s')
  end.

(** Case-insensitive match of a lower-case literal at the start of [s]
    (as [re.I] does for these letters); the rest of [s] on success. *)
Fixpoint match_ci (lit s : string) : option string :=
  match lit with
  | EmptyString => Some s
  | String l lit' =>
      match s with
      | EmptyString => None
      | String c s' =>
          if Ascii.eqb (lower_char c) l then match_ci lit' s' else None
      end
  end.

(** [k] slash characters. *)
Fixpoint slashes (k : nat) : string :=
  match k with
  | O => EmptyString
  | S k' => String "/" (slashes k')
  end.

End PyStr.

Import PyStr.

(** A Python computation either returns a value or raises an exception
    (named by its class or message). *)
Inductive py_result (A : Type) : Type :=
| PyOk (a : A)
| PyRaise (exc : string).
Arguments PyOk {A} a.
Arguments PyRaise {A} exc.

(* ================================================================== *)
(** ** run_save.py: URL canonicalisation *)

Module RunSave.

Local Open Scope string_scope.

(** [WWW_RE = re.compile(r"^https?://(www\.)?", re.I)]: the rest of the
    string after the match, [None] when the pattern does not match. *)
Definition www_re_rest (s : string) : option string :=
  match match_ci "http" s with
  | None => None
  | Some r1 =>
      let r2 := match match_ci "s://" r1 with
                | Some r => Some r
                | None => match_ci "://" r1
                end in
      match r2 with
      | None => None
      | Some r3 =>
          match match_ci "www." r3 with
          | Some r4 => Some r4
          | None => Some r3
          end
      end
  end.

(** [WWW_RE.sub("https://", s)]: the pattern is anchored, so at most one
    substitution, at the start. *)
Definition www_re_sub (s : string) : string :=
  match www_re_rest s with
  | Some r => "https://" ++ r
  | None => s
  end.

(** [normalize_url] *)
Definition normalize_url (u : string) : string :=
  if String.eqb u "" then u
  else rstrip_by is_slash (www_re_sub (py_strip u)).

(** *** [save_items] and the [ingest_items] table

    [supa.table("ingest_items").upsert(rows, on_conflict="doc_url")] is
    PostgreSQL's [INSERT ... ON CONFLICT (doc_url) DO UPDATE] on the
    supplied columns: a row whose [doc_url] exists has exactly those
    columns overwritten and keeps [id], [enriched_at] and [regulation_id];
    other rows get a fresh [id] and null [enriched_at]/[regulation_id].  A
    batch in which two rows share a [doc_url] is refused by PostgreSQL
    ("ON CONFLICT DO UPDATE command cannot affect row a second time"),
    which the client raises as [APIError]. *)

(** The item dict, as read with [it.get(...)]. *)
Record IngestItem := mkItem {
  it_country : option string; it_authority : option string;
  it_title : option string; it_doc_url : option string;
  it_source_url : option string; it_ingest_source_type : option string;
  it_created_at : option string }.

(** The row dict built by [save_items]. *)
Record Row := mkRow {
  r_country : option string; r_authority : option string;
  r_title : string; r_doc_url : string; r_source_url : string;
  r_ingest_source_type : string; r_created_at : option string }.

Record StoredRow := mkStored {
  s_id : Z; s_row : Row; s_enriched_at : option string;
  s_regulation_id : option string }.

Record Store := mkStore { st_rows : list StoredRow; st_next_id : Z }.

(** [x or d] for a string-or-[None] value. *)
Definition or_default (o : option string) (d : string) : string :=
  match o with
  | Some s => if String.eqb s "" then d else s
  | None => d
  end.

(** The body of the [for it in items] loop: [None] is [continue]. *)
Definition make_row (it : IngestItem) : option Row :=
  let doc := normalize_url (or_default (it_doc_url it) "") in
  let src := normalize_url (or_default (it_source_url it) "") in
  if String.eqb doc "" then None
  else Some (mkRow (it_country it) (it_authority it) (or_default (it_title it) "")
                   doc src (or_default (it_ingest_source_type it) "html")
                   (it_created_at it)).

Fixpoint make_rows (items : list IngestItem) : list Row :=
  match items with
  | [] => []
  | it :: its =>
      match make_row it with
      | Some r => r :: make_rows its
      | None => make_rows its
      end
  end.

Definition same_doc (r : Row) (s : StoredRow) : bool :=
  String.eqb (r_doc_url (s_row s)) (r_doc_url r).

(** One row of the upsert. *)
Definition upsert_one (st : Store) (r : Row) : Store :=
  if existsb (same_doc r) (st_rows st) then
    mkStore (map (fun s => if same_doc r s
                           then mkStored (s_id s) r (s_enriched_at s) (s_regulation_id s)
                           else s) (st_rows st))
            (st_next_id st)
  else mkStore ((st_rows st ++ [mkStored (st_next_id st) r None None])%list)
               (st_next_id st + 1).

Fixpoint has_dup (l : list string) : bool :=
  match l with
  | [] => false
  | x :: xs => existsb (String.eqb x) xs || has_dup xs
  end.

(** [.upsert(rows, on_conflict="doc_url").execute().data] *)
Definition upsert (st : Store) (rows : list Row) : py_result (Store * list Row) :=
  if has_dup (map r_doc_url rows) then PyRaise "APIError"
  else PyOk (fold_left upsert_one rows st, rows).

(** [save_items(supa, items)]: the new table and the returned count. *)
Definition save_items (st : Store) (items : list IngestItem) : py_result (Store * Z) :=
  let rows := make_rows items in
  match rows with
  | [] => PyOk (st, 0%Z)
  | _ =>
      match upsert st rows with
      | PyOk (st', data) => PyOk (st', Z.of_nat (length data))
      | PyRaise e => PyRaise e
      end
  end.


End RunSave.

(* ================================================================== *)
(** ** pipeline.py: small helpers *)

Module Pipeline.

Local Open Scope string_scope.

(** [normalize_country]; [None] is Python's [None]. *)
Definition normalize_country (c : option string) : string :=
  let c := py_strip (match c with Some s => s | None => "" end) in
  if String.eqb c "UAE" || String.eqb c "KSA" || String.eqb c "Qatar" then c
  else if String.eqb c "" then "UAE" else c.

(** [looks_like_http] *)
Definition looks_like_http (u : string) : bool :=
  if String.eqb u "" then false
  else let ul := py_lower (py_strip u) in
       startswith ul "http://" || startswith ul "https://".

(** *** [urllib.parse.urlparse] *)

(** [_WHATWG_C0_CONTROL_OR_SPACE]: code points 0..32. *)
Definition is_c0_or_space (c : ascii) : bool := Nat.leb (nat_of_ascii c) 32.

(** [_UNSAFE_URL_BYTES_TO_REMOVE = ['\t', '\r', '\n']] *)
Definition is_unsafe_url_char (c : ascii) : bool :=
  let n := nat_of_ascii c in Nat.eqb n 9 || Nat.eqb n 13 || Nat.eqb n 10.

Fixpoint remove_chars (p : ascii -> bool) (s : string) : string :=
  match s with
  | EmptyString => EmptyString
  | String c s' => if p c then remove_chars p s' else String c (remove_chars p s')
  end.

Definition is_ascii_alpha (c : ascii) : bool :=
  let n := nat_of_ascii c in
  (Nat.leb 65 n && Nat.leb n 90) || (Nat.leb 97 n && Nat.leb n 122).

(** [scheme_chars]: ASCII letters, digits and [+-.]. *)
Definition is_scheme_char (c : ascii) : bool :=
  let n := nat_of_ascii c in
  is_ascii_alpha c || (Nat.leb 48 n && Nat.leb n 57)
  || Nat.eqb n 43 || Nat.eqb n 45 || Nat.eqb n 46.

Fixpoint all_chars (p : ascii -> bool) (s : string) : bool :=
  match s with
  | EmptyString => true
  | String c s' => p c && all_chars p s'
  end.

(** Index of the first character satisfying [p], or the length. *)
Fixpoint first_index (p : ascii -> bool) (s : string) : nat :=
  match s with
  | EmptyString => 0
  | String c s' => if p c then 0 else S (first_index p s')
  end.

Definition str_drop (n : nat) (s : string) : string :=
  String.substring n (String.length s - n) s.

Definition str_take (n : nat) (s : string) : string := String.substring 0 n s.

(** [s.split(c, 1)] when [c in s]: the parts before and after the first [c]. *)
Definition split_first (c : ascii) (s : string) : string * string :=
  let i := first_index (Ascii.eqb c) s in (str_take i s, str_drop (S i) s).

(** [s.rfind(c)], [-1] when absent. *)
Fixpoint rfind_char (c : ascii) (s : string) : Z :=
  match s with
  | EmptyString => (-1)%Z
  | String d s' =>
      let r := rfind_char c s' in
      if (r <? 0)%Z then (if Ascii.eqb c d then 0%Z else (-1)%Z) else (r + 1)%Z
  end.

(** [s.find(c, start)], [-1] when absent. *)
Definition find_char_from (c : ascii) (s : string) (start : nat) : Z :=
  let r := str_drop start s in
  if py_in (String c EmptyString) r then Z.of_nat (start + first_index (Ascii.eqb c) r)
  else (-1)%Z.

Record SplitResult := mkSplit {
  sr_scheme : string; sr_netloc : string; sr_path : string;
  sr_query : string; sr_fragment : string }.

(** [urlsplit(url)] (default [scheme=''], [allow_fragments=True]); [None]
    is the [ValueError("Invalid IPv6 URL")] it raises on unbalanced
    brackets in the netloc.  [_checknetloc] only acts on non-ASCII netlocs
    whose NFKC form gains one of [/?#@:], which no code point below 256
    does.  The check of bracketed hosts added in Python 3.11.4 only makes
    more inputs raise and is left out. *)
Definition urlsplit (url0 : string) : option SplitResult :=
  let url1 := remove_chars is_unsafe_url_char (lstrip_by is_c0_or_space url0) in
  let i := find_char ":" url1 in
  let '(scheme, url2) :=
    match url1 with
    | String c0 _ =>
        if (0 <? i)%Z && is_ascii_alpha c0
           && all_chars is_scheme_char (str_take (Z.to_nat i) url1)
        then (py_lower (str_take (Z.to_nat i) url1), str_drop (S (Z.to_nat i)) url1)
        else ("", url1)
    | EmptyString => ("", url1)
    end in
  let '(netloc, url3) :=
    if String.eqb (str_take 2 url2) "//" then
      let r := str_drop 2 url2 in
      let d := first_index (fun c => Ascii.eqb c "/" || Ascii.eqb c "?" || Ascii.eqb c "#") r in
      (str_take d r, str_drop d r)
    else ("", url2) in
  if (py_in "[" netloc && negb (py_in "]" netloc))
     || (py_in "]" netloc && negb (py_in "[" netloc))
  then None
  else
    let '(url4, fragment) :=
      if py_in "#" url3 then split_first "#" url3 else (url3, "") in
    let '(url5, query) :=
      if py_in "?" url4 then split_first "?" url4 else (url4, "") in
    Some (mkSplit scheme netloc url5 query fragment).

(** [uses_params] *)
Definition uses_params : list string :=
  [""; "ftp"; "hdl"; "prospero"; "http"; "imap"; "https"; "shttp"; "rtsp";
   "rtsps"; "rtspu"; "sip"; "sips"; "mms"; "sftp"; "tel"].

(** [_splitparams(url)] *)
Definition splitparams (url : string) : string * string :=
  let i :=
    if py_in "/" url then find_char_from ";" url (Z.to_nat (rfind_char "/" url))
    else find_char ";" url in
  if (i <? 0)%Z then (url, "")
  else (str_take (Z.to_nat i) url, str_drop (S (Z.to_nat i)) url).

Record ParseResult := mkParse {
  pr_scheme : string; pr_netloc : string; pr_path : string;
  pr_params : string; pr_query : string; pr_fragment : string }.

(** [urlparse(url)] *)
Definition urlparse (url : string) : option ParseResult :=
  match urlsplit url with
  | None => None
  | Some (mkSplit scheme netloc path query fragment) =>
      let '(path', params) :=
        if existsb (String.eqb scheme) uses_params && py_in ";" path
        then splitparams path else (path, "") in
      Some (mkParse scheme netloc path' params query fragment)
  end.

(** *** CPython's [set] of [str]

    A fresh set has an 8-slot table (mask 7).  The sets of
    [candidate_urls] hold at most two strings, below the resize point
    (fill*5 >= mask*3), so the table never grows.  For an 8-slot table
    [i + LINEAR_PROBES <= mask] never holds, so each probe step inspects one
    slot, then [perturb >>= 5; i = (i*5 + 1 + perturb) & mask].  The string
    hash is a parameter: CPython keys it with a per-process random secret
    (PYTHONHASHSEED), so it may differ from one interpreter run to the
    next. *)

Definition Table := list (option string).

Definition empty_table : Table := repeat None 8.

Definition set_mask : Z := 7.

Fixpoint table_set (tbl : Table) (i : nat) (x : option string) : Table :=
  match tbl, i with
  | [], _ => []
  | _ :: t, O => x :: t
  | y :: t, S j => y :: table_set t j x
  end.

Fixpoint probe (fuel : nat) (tbl : Table) (x : string) (i perturb : Z) : option Table :=
  match fuel with
  | O => None
  | S f =>
      match nth (Z.to_nat i) tbl None with
      | None => Some (table_set tbl (Z.to_nat i) (Some x))
      | Some y =>
          if String.eqb y x then Some tbl
          else let p := Z.shiftr perturb 5 in
               probe f tbl x (Z.land (i * 5 + 1 + p) set_mask) p
      end
  end.

(** [set.add(x)]; [hash x] is [Py_hash_t], [(size_t)hash] its value
    modulo 2^64. *)
Definition set_add (hash : string -> Z) (tbl : Table) (x : string) : option Table :=
  let h := hash x in
  probe 64 tbl x (Z.land h set_mask) (Z.land h (Z.ones 64)).

Fixpoint set_add_all (hash : string -> Z) (tbl : Table) (xs : list string) : option Table :=
  match xs with
  | [] => Some tbl
  | x :: xs' =>
      match set_add hash tbl x with
      | Some t => set_add_all hash t xs'
      | None => None
      end
  end.

(** [list(s)]: the occupied slots in table order. *)
Fixpoint set_elements (tbl : Table) : list string :=
  match tbl with
  | [] => []
  | Some x :: t => x :: set_elements t
  | None :: t => set_elements t
  end.

(** *** [candidate_urls]; [None] is an exception raised by [urlparse]. *)
Definition candidate_urls (hash : string -> Z) (base_url : string) : option (list string) :=
  if String.eqb base_url "" then Some []
  else
    let b0 := py_strip base_url in
    let b := if looks_like_http b0 then b0 else "https://" ++ lstrip_by is_slash b0 in
    match urlparse b with
    | None => None
    | Some u =>
        let host := py_lower (pr_netloc u) in
        let path0 := if String.eqb (pr_path u) "" then "/" else pr_path u in
        let path1 := if py_in "hukoomi.gov.qa" host then "/en/policies-and-strategies" else path0 in
        let path2 := if py_in "mcit.gov.qa" host && py_in "/policies" path1
                        && negb (py_in "reports" path1)
                     then "/en/policies-and-reports/" else path1 in
        let path := if py_in "ncsa.gov.qa" host && (String.eqb path2 "/" || String.eqb path2 "")
                    then "/en/" else path2 in
        let base_norm := "https://" ++ host ++ path in
        let alt := if startswith host "www." then "https://" ++ str_drop 4 host ++ path
                   else "https://www." ++ host ++ path in
        let fix_slash v := rstrip_by is_slash v ++ (if endswith path "/" then "/" else "") in
        match set_add_all hash empty_table [base_norm; alt] with
        | None => None
        | Some t1 =>
            match set_add_all hash empty_table (map fix_slash (set_elements t1)) with
            | None => None
            | Some t2 => Some (set_elements t2)
            end
        end
    end.

(** *** [fetch_first_ok]

    The HTTP client is an oracle [net n u]: the outcome of the [n]-th
    request of the call (counted from 0), made to [u].  The trace records
    the requests, the sleeps and the final log line.  [asyncio.sleep(1.2 *
    (attempt + 1))] is recorded in tenths of a second. *)

Record Response := mkResponse { status_code : Z; resp_url : string }.

Inductive Outcome :=
| Resp (r : Response)
| Raised (exc_name msg : string).

(** [last_err]: ["HTTP {status} for {u}"] or ["{type}: {e} for {u}"]. *)
Inductive FetchErr :=
| HttpStatus (code : Z) (u : string)
| ExcFor (exc_name msg u : string).

Inductive FetchEvent :=
| Get (u : string)
| Sleep (tenths : Z)
| LogErr (e : FetchErr).

(** The inner [for u in urls] loop: the events, the request counter, and
    either the 200 response or the pass's [last_err]. *)
Fixpoint fetch_pass (net : nat -> string -> Outcome) (n : nat) (urls : list string)
    (last : option FetchErr) : list FetchEvent * nat * (Response + option FetchErr) :=
  match urls with
  | [] => ([], n, inr last)
  | u :: us =>
      match net n u with
      | Resp r =>
          if (status_code r =? 200)%Z then ([Get u], S n, inl r)
          else let '(tr, n', o) := fetch_pass net (S n) us (Some (HttpStatus (status_code r) u)) in
               (Get u :: tr, n', o)
      | Raised nm msg =>
          let '(tr, n', o) := fetch_pass net (S n) us (Some (ExcFor nm msg u)) in
          (Get u :: tr, n', o)
      end
  end.

(** The outer [for attempt in ...] loop; [last] is [None] while
    [last_err] is still unbound. *)
Fixpoint fetch_passes (net : nat -> string -> Outcome) (n : nat) (urls : list string)
    (retries : Z) (attempts : list Z) (last : option (option FetchErr))
    : list FetchEvent * (Response + option (option FetchErr)) :=
  match attempts with
  | [] => ([], inr last)
  | a :: rest =>
      let '(tr1, n1, o) := fetch_pass net n urls None in
      match o with
      | inl r => (tr1, inl r)
      | inr le =>
          let sl := if (a <? retries)%Z then [Sleep (12 * (a + 1))%Z] else [] in
          let '(tr2, o2) := fetch_passes net n1 urls retries rest (Some le) in
          ((tr1 ++ sl ++ tr2)%list, o2)
      end
  end.

(** [range(n)] *)
Definition py_range (n : Z) : list Z := map Z.of_nat (seq 0 (Z.to_nat n)).

(** [fetch_first_ok(client, urls, retries)]; reading [last_err] after a
    loop that never ran raises [UnboundLocalError]. *)
Definition fetch_first_ok (net : nat -> string -> Outcome) (urls : list string) (retries : Z)
    : py_result (list FetchEvent * option Response) :=
  let '(tr, o) := fetch_passes net 0 urls retries (py_range (retries + 1)) None in
  match o with
  | inl r => PyOk (tr, Some r)
  | inr None => PyRaise "UnboundLocalError"
  | inr (Some None) => PyOk (tr, None)
  | inr (Some (Some e)) => PyOk ((tr ++ [LogErr e])%list, None)
  end.

(** *** [is_pdf_url], [domain_of], [want_link_for_domain] *)

(** [is_pdf_url]: the [ValueError] of [urlparse] is caught. *)
Definition is_pdf_url (u : string) : bool :=
  match urlparse u with
  | None => false
  | Some p => endswith (py_lower (pr_path p)) ".pdf"
  end.

(** [domain_of] *)
Definition domain_of (u : string) : string :=
  match urlparse u with
  | None => ""
  | Some p => py_lower (pr_netloc p)
  end.

(** [any(k in u for k in ks)] *)
Definition any_in (ks : list string) (u : string) : bool :=
  existsb (fun k => py_in k u) ks.

(** [want_link_for_domain] *)
Definition want_link_for_domain (abs_url page_domain : string) : bool :=
  let u := py_lower abs_url in
  if py_in "data.gov.qa" page_domain then
    if is_pdf_url abs_url then true
    else if any_in ["/explore/"; "/dataset/"; "/download"; "/api/"] u then true
    else if py_in "/pages/" u && negb (is_pdf_url abs_url) then false
    else false
  else if py_in "hukoomi.gov.qa" page_domain then
    if is_pdf_url abs_url then true
    else if any_in ["policy"; "policies"; "strategy"; "strategies"; "data"; "ai"; "cyber";
                    "security"; "privacy"] u then true
    else false
  else if is_pdf_url abs_url then true
  else any_in ["policy"; "report"; "document"; "data"; "ai"; "cyber"; "privacy"; "security"] u.

(** *** The collectors

    A row of [coverage] as read with [source.get(...)] ([has_rss] read for
    its truth value), and the item dict the collectors build.  The log
    lines they print are not recorded. *)

Record Source := mkSource {
  so_country : option string; so_authority : option string;
  so_source_url : option string; so_rss_url : option string;
  so_format : option string; so_has_rss : bool }.

Record PItem := mkPItem {
  pi_country : string; pi_authority : option string; pi_source_url : option string;
  pi_ingest_source_type : string; pi_title : option string; pi_doc_url : option string;
  pi_published_at : option string; pi_summary : option string;
  pi_raw_meta : list (string * string) }.

(** [(x or "")] for a string-or-[None] value. *)
Definition or_empty (o : option string) : string :=
  match o with Some s => s | None => "" end.

(** [x or y] for string-or-[None] values. *)
Definition or_else (x y : option string) : option string :=
  match x with
  | Some s => if String.eqb s "" then y else x
  | None => y
  end.

(** A feed entry, read with [getattr(e, ..., None)]. *)
Record Entry := mkEntry {
  e_title : option string; e_link : option string; e_published : option string;
  e_updated : option string; e_summary : option string }.

Section Collectors.

(** [feedparser.parse(url).entries] *)
Variable feed_entries : string -> list Entry.

(** [collect_rss] *)
Definition collect_rss (source : Source) : list PItem :=
  let raw_rss := py_strip (or_empty (so_rss_url source)) in
  if negb (looks_like_http raw_rss) then []
  else
    let url := raw_rss in
    map (fun e => mkPItem (normalize_country (so_country source)) (so_authority source)
                    (so_source_url source) "rss" (e_title e) (e_link e)
                    (or_else (e_published e) (e_updated e)) (e_summary e)
                    [("rss_url", url)])
        (firstn 50 (feed_entries url)).

(** An [<a>] element: its [href] attribute and [a.text(strip=True)]. *)
Record Anchor := mkAnchor { a_href : option string; a_text : string }.

(** [urljoin(base, href)] *)
Variable urljoin : string -> string -> string.
(** [HTMLParser(r.text).css("a")] for the page served as [r]; [None] when
    [HTMLParser] raises. *)
Variable page_anchors : Response -> option (list Anchor).

(** [href.startswith(("#", "mailto:", "tel:", "javascript:"))] *)
Definition skipped_href (href : string) : bool :=
  startswith href "#" || startswith href "mailto:" || startswith href "tel:"
  || startswith href "javascript:".

(** The [for a in anchors] loop of [collect_html_async]: [seen] and [docs]
    so far; [docs] reaching 50 is the [break]. *)
Fixpoint html_loop (source : Source) (page_url page_domain : string) (anchors : list Anchor)
    (seen : list string) (docs : list PItem) : list PItem :=
  match anchors with
  | [] => docs
  | a :: rest =>
      let href := py_strip (or_empty (a_href a)) in
      if String.eqb href "" then html_loop source page_url page_domain rest seen docs
      else if skipped_href href then html_loop source page_url page_domain rest seen docs
      else
        let abs_url := urljoin page_url href in
        if negb (looks_like_http abs_url) then html_loop source page_url page_domain rest seen docs
        else if existsb (String.eqb abs_url) seen then html_loop source page_url page_domain rest seen docs
        else
          let seen' := abs_url :: seen in
          if negb (want_link_for_domain abs_url page_domain)
          then html_loop source page_url page_domain rest seen' docs
          else
            let title := if String.eqb (a_text a) "" then abs_url else a_text a in
            let item := mkPItem (normalize_country (so_country source)) (so_authority source)
                          (so_source_url source)
                          (if is_pdf_url abs_url then "html:pdf-link" else "html")
                          (Some (substring 0 500 title)) (Some abs_url) None None
                          [("from_page", page_url)] in
            let docs' := (docs ++ [item])%list in
            if Nat.leb 50 (length docs') then docs'
            else html_loop source page_url page_domain rest seen' docs'
  end.

(** [collect_html_async(client, source)]: [urls[0]] raises [IndexError] on
    an empty candidate list. *)
Definition collect_html_async (hash : string -> Z) (net : nat -> string -> Outcome)
    (source : Source) : py_result (list PItem) :=
  let src0 := py_strip (or_empty (so_source_url source)) in
  let src := if looks_like_http src0 then src0 else "https://" ++ lstrip_by is_slash src0 in
  match candidate_urls hash src with
  | None => PyRaise "ValueError"
  | Some [] => PyRaise "IndexError"
  | Some urls =>
      match fetch_first_ok net urls 2 with
      | PyRaise e => PyRaise e
      | PyOk (_, None) => PyOk []
      | PyOk (_, Some r) =>
          match page_anchors r with
          | None => PyOk []
          | Some anchors =>
              let page_domain := domain_of (resp_url r) in
              PyOk (html_loop source (resp_url r) page_domain anchors [] [])
          end
      end
  end.

End Collectors.

End Pipeline.

(* ================================================================== *)
(** ** alerts.py *)

Module Alerts.

Local Open Scope string_scope.
Local Open Scope Z_scope.

(** A [datetime] as an instant in microseconds since the Unix epoch; an
    aware one is compared through its UTC instant. *)
Inductive datetime :=
| Aware (us : Z)
| Naive (us : Z).

Definition us_per_hour : Z := 3600 * 1000000.

(** [datetime.min] (0001-01-01) and [datetime.max] (9999-12-31
    23:59:59.999999) in microseconds since the epoch. *)
Definition datetime_min_us : Z := -62135596800 * 1000000.
Definition datetime_max_us : Z := 253402300799999999.

(** A row of [ingest_items] as returned by the query of
    [check_silent_sources] (country filter, order and limit are applied by
    the database). *)
Record DbRow := mkDbRow {
  c_country : option string; c_authority : option string;
  c_source_url : option string; c_created_at : option string }.

Definition Key : Type := (string * string * string)%type.

Definition key_eqb (k1 k2 : Key) : bool :=
  let '(a1, b1, c1) := k1 in
  let '(a2, b2, c2) := k2 in
  String.eqb a1 a2 && String.eqb b1 b2 && String.eqb c1 c2.

(** The value when it is truthy ([None] and [""] are falsy). *)
Definition truthy (o : option string) : option string :=
  match o with
  | Some s => if String.eqb s "" then None else Some s
  | None => None
  end.

(** A dict [str -> int] as an association list; [dict_get d k dflt] is
    [d.get(k, dflt)]. *)
Fixpoint dict_get (d : list (string * Z)) (k : string) (dflt : Z) : Z :=
  match d with
  | [] => dflt
  | (k', v) :: d' => if String.eqb k' k then v else dict_get d' k dflt
  end.

(** [SilenceAlert]; [hours_since] is computed in the source as
    [round((now - last_dt).total_seconds() / 3600, 1)] from the elapsed
    time kept here in microseconds. *)
Record Alert := mkAlert {
  a_country : string; a_authority : string; a_source_url : string;
  a_last_item_at : datetime; a_elapsed_us : Z; a_threshold_h : Z }.

Section Silent.

(** [datetime.fromisoformat]: the parsed value, or [None] when it raises. *)
Variable fromisoformat : string -> option datetime.

(** The first loop of [check_silent_sources], building the
    [OrderedDict] [latest_by_source] (kept in insertion order). *)
Fixpoint latest_loop (rows : list DbRow) (acc : list (Key * datetime)) : list (Key * datetime) :=
  match rows with
  | [] => acc
  | r :: rs =>
      match truthy (c_country r), truthy (c_authority r), truthy (c_source_url r) with
      | Some a, Some b, Some c =>
          if existsb (fun e => key_eqb (fst e) (a, b, c)) acc then latest_loop rs acc
          else
            match truthy (c_created_at r) with
            | None => latest_loop rs acc
            | Some ts =>
                match fromisoformat (replace_char "Z" "+00:00" ts) with
                | None => latest_loop rs acc
                | Some dt => latest_loop rs (acc ++ [((a, b, c), dt)])%list
                end
            end
      | _, _, _ => latest_loop rs acc
      end
  end.

Definition latest_by_source (rows : list DbRow) : list (Key * datetime) :=
  latest_loop rows [].

(** The second loop: [TypeError] when an offset-naive [last_dt] is
    compared with the aware [now], [OverflowError] when
    [now - timedelta(hours=thr)] leaves the [datetime] range. *)
Fixpoint silent_loop (now : Z) (dflt : Z) (overrides : list (string * Z))
    (entries : list (Key * datetime)) : py_result (list Alert) :=
  match entries with
  | [] => PyOk []
  | ((ctry, authority, src_url), last_dt) :: es =>
      let thr := dict_get overrides authority dflt in
      let lim := now - thr * us_per_hour in
      if (lim <? datetime_min_us) || (datetime_max_us <? lim) then PyRaise "OverflowError"
      else
        match last_dt with
        | Naive _ => PyRaise "TypeError"
        | Aware t =>
            match silent_loop now dflt overrides es with
            | PyRaise e => PyRaise e
            | PyOk rest =>
                if t <? lim
                then PyOk (mkAlert ctry authority src_url last_dt (now - t) thr :: rest)
                else PyOk rest
            end
        end
  end.

(** [check_silent_sources]: [rows] is the query result, [now] is
    [utcnow()] (aware, UTC). *)
Definition check_silent_sources (rows : list DbRow) (min_silence_hours_default : Z)
    (silence_overrides : list (string * Z)) (now : Z) : py_result (list Alert) :=
  silent_loop now min_silence_hours_default silence_overrides (latest_by_source rows).

End Silent.

(** Whether an alert for [k] is in the output. *)
Definition flagged (alerts : list Alert) (k : Key) : bool :=
  existsb (fun a => key_eqb (a_country a, a_authority a, a_source_url a) k) alerts.

(** *** [main]

    The environment check, the database and Mailgun are inputs: the
    outcomes of [check_pending_enrich], [check_failed_runs],
    [check_silent_sources] and of the Mailgun POST.  Writes to [runs_log]
    succeed.  [utcnow().isoformat()] is [finished_at]. *)

Record Args := mkArgs {
  arg_country : option string; arg_min_silence_hours : Z;
  arg_silence_overrides : option string; arg_since_hours : Z;
  arg_only_if_issues : bool; arg_dry_run : bool }.

Record FailedRun := mkFailedRun {
  fr_run_type : string; fr_started_at : string; fr_ok_count : Z;
  fr_fail_count : Z; fr_notes : option string }.

Inductive MainEvent :=
| RunInserted (run_type : string) (ok_count fail_count : Z) (notes : string)
| RunUpdated (run_id : Z) (ok_count fail_count : Z) (notes : option string)
             (finished_at : string)
| MailSent (pending failed silent : Z)
| MailDryRun (pending failed silent : Z)
| Printed (s : string).

Inductive Exit :=
| ExitCode (code : Z)
| Uncaught (exc : string).

Definition no_problems_note : string := "only-if-issues: no problems -> no email".

Definition main (env_ok : bool) (args : Args) (run_id : Z) (pending : py_result Z)
    (failed : py_result (list FailedRun)) (silent : py_result (list Alert))
    (mail : py_result unit) (finished_at : string) : list MainEvent * Exit :=
  if negb env_ok then ([], Uncaught "RuntimeError")
  else
    let ev0 := [RunInserted "alert" 0 0 "started"] in
    let on_error e :=
      ((ev0 ++ [Printed ("ERROR: " ++ e); RunUpdated run_id 0 1 (Some e) finished_at])%list,
       ExitCode 1) in
    match pending with
    | PyRaise e => on_error e
    | PyOk p =>
    match failed with
    | PyRaise e => on_error e
    | PyOk fl =>
    match silent with
    | PyRaise e => on_error e
    | PyOk sl =>
        let nf := Z.of_nat (length fl) in
        let ns := Z.of_nat (length sl) in
        if arg_only_if_issues args && (Nat.eqb (length sl) 0 && Nat.eqb (length fl) 0) then
          ((ev0 ++ [Printed no_problems_note;
                    RunUpdated run_id 0 0 (Some no_problems_note) finished_at])%list,
           ExitCode 0)
        else
          let sent :=
            if arg_dry_run args then PyOk [MailDryRun p nf ns]
            else match mail with
                 | PyOk _ => PyOk [MailSent p nf ns]
                 | PyRaise e => PyRaise e
                 end in
          match sent with
          | PyRaise e => on_error e
          | PyOk evm =>
              ((ev0 ++ evm ++ [Printed "OK - alerta procesada.";
                               RunUpdated run_id 1 0 None finished_at])%list,
               ExitCode 0)
          end
    end
    end
    end.

(** [main] with the [runs_log] writes as inputs as well: [insert] is the
    outcome of the insert (the new row's [id]), [update] that of the
    update inside the [try] (the "no problems" one or the final 1/0 one),
    [update_err] that of the update in the [except] branch.  A write that
    raises records nothing; an exception raised in the [except] branch
    escapes [main].  [main] above is the case where every write succeeds. *)
Definition main_with_writes (env_ok : bool) (args : Args) (insert : py_result Z)
    (pending : py_result Z) (failed : py_result (list FailedRun))
    (silent : py_result (list Alert)) (mail : py_result unit)
    (update update_err : py_result unit) (finished_at : string) : list MainEvent * Exit :=
  if negb env_ok then ([], Uncaught "RuntimeError")
  else
  match insert with
  | PyRaise e => ([], Uncaught e)
  | PyOk run_id =>
    let ev0 := [RunInserted "alert" 0 0 "started"] in
    let on_error (pre : list MainEvent) (e : string) :=
      match update_err with
      | PyOk _ =>
          ((ev0 ++ pre ++ [Printed ("ERROR: " ++ e); RunUpdated run_id 0 1 (Some e) finished_at])%list,
           ExitCode 1)
      | PyRaise e' => ((ev0 ++ pre ++ [Printed ("ERROR: " ++ e)])%list, Uncaught e')
      end in
    match pending with
    | PyRaise e => on_error [] e
    | PyOk p =>
    match failed with
    | PyRaise e => on_error [] e
    | PyOk fl =>
    match silent with
    | PyRaise e => on_error [] e
    | PyOk sl =>
        let nf := Z.of_nat (length fl) in
        let ns := Z.of_nat (length sl) in
        if arg_only_if_issues args && (Nat.eqb (length sl) 0 && Nat.eqb (length fl) 0) then
          let pre := [Printed no_problems_note] in
          match update with
          | PyOk _ =>
              ((ev0 ++ pre ++ [RunUpdated run_id 0 0 (Some no_problems_note) finished_at])%list,
               ExitCode 0)
          | PyRaise e => on_error pre e
          end
        else
          let sent :=
            if arg_dry_run args then PyOk [MailDryRun p nf ns]
            else match mail with
                 | PyOk _ => PyOk [MailSent p nf ns]
                 | PyRaise e => PyRaise e
                 end in
          match sent with
          | PyRaise e => on_error [] e
          | PyOk evm =>
              let pre := (evm ++ [Printed "OK - alerta procesada."])%list in
              match update with
              | PyOk _ => ((ev0 ++ pre ++ [RunUpdated run_id 1 0 None finished_at])%list, ExitCode 0)
              | PyRaise e => on_error pre e
              end
          end
    end
    end
    end
  end.

(** *** [parse_overrides] *)

(** [s.split(c)] with an explicit one-character separator. *)
Fixpoint split_on (c : ascii) (s : string) : list string :=
  match s with
  | EmptyString => [""]
  | String d s' =>
      if Ascii.eqb d c then "" :: split_on c s'
      else match split_on c s' with
           | h :: t => String d h :: t
           | [] => [String d ""]
           end
  end.

(** [c in s] for a one-character [c]. *)
Fixpoint has_char (c : ascii) (s : string) : bool :=
  match s with
  | EmptyString => false
  | String d s' => Ascii.eqb d c || has_char c s'
  end.

(** [s.split(c, 1)] when [c in s]: the parts around the first [c]. *)
Fixpoint split_once (c : ascii) (s : string) : string * string :=
  match s with
  | EmptyString => ("", "")
  | String d s' =>
      if Ascii.eqb d c then ("", s')
      else let '(a, b) := split_once c s' in (String d a, b)
  end.

Definition is_digit (c : ascii) : bool :=
  Nat.leb 48 (nat_of_ascii c) && Nat.leb (nat_of_ascii c) 57.

Definition digit_val (c : ascii) : Z := Z.of_nat (nat_of_ascii c - 48).

(** The digits after the first: single underscores may separate digits;
    the value so far and the number of digits read. *)
Fixpoint digits_loop (s : string) (acc : Z) (nd : nat) (prev_us : bool) : option (Z * nat) :=
  match s with
  | EmptyString => if prev_us then None else Some (acc, nd)
  | String c s' =>
      if is_digit c then digits_loop s' (acc * 10 + digit_val c) (S nd) false
      else if Ascii.eqb c "_" && negb prev_us then digits_loop s' acc nd true
      else None
  end.

(** [sys.get_int_max_str_digits()] default: a decimal string of more digits
    raises [ValueError]. *)
Definition int_max_str_digits : nat := 4300.

Definition int_body (s : string) : option Z :=
  match s with
  | EmptyString => None
  | String c s' =>
      if is_digit c then
        match digits_loop s' (digit_val c) 1 false with
        | Some (v, nd) => if Nat.leb nd int_max_str_digits then Some v else None
        | None => None
        end
      else None
  end.

(** [int(s)] for a [str]; [None] is the [ValueError]. *)
Definition py_int (s : string) : option Z :=
  let t := py_strip s in
  match t with
  | EmptyString => None
  | String c r =>
      if Ascii.eqb c "-" then option_map Z.opp (int_body r)
      else if Ascii.eqb c "+" then int_body r
      else int_body t
  end.

(** [out[k] = v] on a dict kept as an association list in insertion
    order. *)
Fixpoint dict_set (d : list (string * Z)) (k : string) (v : Z) : list (string * Z) :=
  match d with
  | [] => [(k, v)]
  | (k', v') :: d' => if String.eqb k' k then (k, v) :: d' else (k', v') :: dict_set d' k v
  end.

(** [[x.strip() for x in s.split(",") if x.strip()]] *)
Definition override_entries (s : string) : list string :=
  filter (fun x => negb (String.eqb x "")) (map py_strip (split_on "," s)).

(** One iteration of the [for p in ...] loop. *)
Definition override_step (out : list (string * Z)) (p : string) : list (string * Z) :=
  if negb (has_char "=" p) then out
  else
    let '(k, v) := split_once "=" p in
    match py_int (py_strip v) with
    | Some n => dict_set out (py_strip k) n
    | None => out
    end.

(** [parse_overrides] *)
Definition parse_overrides (s : option string) : list (string * Z) :=
  match s with
  | None => []
  | Some s =>
      if String.eqb s "" then []
      else fold_left override_step (override_entries s) []
  end.

End Alerts.

(* ================================================================== *)
(** * Properties *)

(** ** String lemmas *)

Module StrFacts.

Local Open Scope string_scope.

Lemma append_assoc' (a b c : string) : (a ++ b) ++ c = a ++ (b ++ c).
Proof. induction a as [|x a IH]; simpl; [reflexivity | now rewrite IH]. Qed.

Lemma append_empty_r (a : string) : a ++ "" = a.
Proof. induction a as [|x a IH]; simpl; [reflexivity | now rewrite IH]. Qed.

Lemma rstrip_by_app (p : ascii -> bool) (a b : string) :
  rstrip_by p (a ++ b) =
  if String.eqb (rstrip_by p b) "" then rstrip_by p a else a ++ rstrip_by p b.
Proof.
  induction a as [|c a IH]; simpl.
  - destruct (String.eqb (rstrip_by p b) "") eqn:E; [|reflexivity].
    now apply String.eqb_eq in E.
  - rewrite IH. destruct (String.eqb (rstrip_by p b) "") eqn:E; [reflexivity|].
    destruct a; simpl; try rewrite E; reflexivity.
Qed.

Lemma rstrip_slash_slashes (k : nat) : rstrip_by is_slash (slashes k) = "".
Proof. induction k as [|k IH]; simpl; [reflexivity | now rewrite IH]. Qed.

Lemma rstrip_space_slashes (k : nat) : rstrip_by is_py_space (slashes k) = slashes k.
Proof. induction k as [|k IH]; simpl; [reflexivity | rewrite IH; now destruct (slashes k)]. Qed.

Fixpoint no_slash_in (s : string) : bool :=
  match s with
  | EmptyString => true
  | String c s' => negb (Ascii.eqb c "/") && no_slash_in s'
  end.

Lemma match_ci_app_slashes (lit r : string) (k : nat) :
  no_slash_in lit = true -> match_ci lit r = None ->
  match_ci lit (r ++ slashes k) = None.
Proof.
  revert r. induction lit as [|l lit IH]; intros r Hns Hm; [discriminate|].
  simpl in Hns. apply andb_prop in Hns as [Hl Hns].
  destruct r as [|c r].
  - destruct k as [|k]; [reflexivity|]. cbn [append slashes match_ci].
    replace (lower_char "/") with "/"%char by reflexivity.
    destruct (Ascii.eqb "/" l) eqn:E; [|reflexivity].
    apply Ascii.eqb_eq in E. subst l. discriminate.
  - cbn [append match_ci] in *. destruct (Ascii.eqb (lower_char c) l); [|reflexivity].
    now apply IH.
Qed.

End StrFacts.

(** ** C10: [normalize_country] *)

(** C10: [normalize_country] does not enforce the country enum: it returns
    the stripped input whenever that is non-empty (also outside
    {UAE, KSA, Qatar}) and ["UAE"] for [None], [""] or blank input. *)
Theorem normalize_country_spec (c : option string) :
  Pipeline.normalize_country c =
  (let s := py_strip (match c with Some s => s | None => ""%string end) in
   if String.eqb s "" then "UAE"%string else s).
Proof.
  unfold Pipeline.normalize_country. cbv zeta.
  destruct (py_strip (match c with Some s => s | None => ""%string end)) as [|x s] eqn:E.
  - reflexivity.
  - destruct (String.eqb (String x s) "UAE") eqn:E1;
      [apply String.eqb_eq in E1; rewrite E1; reflexivity|].
    destruct (String.eqb (String x s) "KSA") eqn:E2;
      [apply String.eqb_eq in E2; rewrite E2; reflexivity|].
    destruct (String.eqb (String x s) "Qatar") eqn:E3;
      [apply String.eqb_eq in E3; rewrite E3; reflexivity|].
    reflexivity.
Qed.

(** ** C1: [normalize_url] *)

Module NormalizeUrlFacts.

Local Open Scope string_scope.
Import StrFacts.

(** A URL [sch ++ w ++ r ++ slashes k] with scheme [http://] or
    [https://] and an optional [www.] normalises to
    ["https://" ++ r] without trailing slashes, as long as [r] itself does
    not start with [www.] and does not end in whitespace. *)
Lemma normalize_url_shape (sch w r : string) (k : nat) :
  In sch ["http://"; "https://"] -> In w [""; "www."] ->
  match_ci "www." r = None -> rstrip_by is_py_space r = r ->
  RunSave.normalize_url (sch ++ w ++ r ++ slashes k) = rstrip_by is_slash ("https://" ++ r).
Proof.
  intros Hs Hw Hr Hsp.
  assert (Hrs : rstrip_by is_py_space (r ++ slashes k) = r ++ slashes k).
  { rewrite rstrip_by_app, rstrip_space_slashes.
    destruct k; simpl; [now rewrite Hsp, append_empty_r | reflexivity]. }
  assert (Hm : match_ci "www." (r ++ slashes k) = None)
    by (apply match_ci_app_slashes; [reflexivity | exact Hr]).
  assert (Hfin : rstrip_by is_slash ("https://" ++ r ++ slashes k)
                 = rstrip_by is_slash ("https://" ++ r)).
  { rewrite <- append_assoc', rstrip_by_app, rstrip_slash_slashes. reflexivity. }
  assert (Hwx : rstrip_by is_py_space (w ++ r ++ slashes k) = w ++ r ++ slashes k).
  { rewrite rstrip_by_app, Hrs.
    destruct (String.eqb (r ++ slashes k) "") eqn:E; [|reflexivity].
    apply String.eqb_eq in E. rewrite E, append_empty_r.
    destruct Hw as [<-|[<-|[]]]; reflexivity. }
  assert (Hstrip : py_strip (sch ++ w ++ r ++ slashes k) = sch ++ w ++ r ++ slashes k).
  { unfold py_strip.
    replace (lstrip_by is_py_space (sch ++ w ++ r ++ slashes k)) with (sch ++ w ++ r ++ slashes k)
      by (destruct Hs as [<-|[<-|[]]]; reflexivity).
    rewrite rstrip_by_app, Hwx.
    destruct (String.eqb (w ++ r ++ slashes k) "") eqn:E; [|reflexivity].
    apply String.eqb_eq in E. rewrite E, append_empty_r.
    destruct Hs as [<-|[<-|[]]]; reflexivity. }
  assert (Hwr : RunSave.www_re_rest (sch ++ w ++ r ++ slashes k) =
                match match_ci "www." (w ++ r ++ slashes k) with
                | Some r4 => Some r4
                | None => Some (w ++ r ++ slashes k)
                end)
    by (destruct Hs as [<-|[<-|[]]]; reflexivity).
  unfold RunSave.normalize_url.
  replace (String.eqb (sch ++ w ++ r ++ slashes k) "") with false
    by (destruct Hs as [<-|[<-|[]]]; reflexivity).
  rewrite Hstrip. unfold RunSave.www_re_sub. rewrite Hwr.
  destruct Hw as [<-|[<-|[]]].
  - change ("" ++ r ++ slashes k) with (r ++ slashes k). rewrite Hm. exact Hfin.
  - replace (match_ci "www." ("www." ++ r ++ slashes k)) with (Some (r ++ slashes k))
      by reflexivity.
    exact Hfin.
Qed.

End NormalizeUrlFacts.

(** C1 (as amended): for URLs with an [http://] or [https://] scheme,
    differing only in the scheme, a leading [www.] (the rest not itself
    starting with [www.]) or trailing slashes (the rest not ending in
    whitespace), [normalize_url] gives the same key; the first two URLs of
    the claim give ["https://example.com/a"], while the host case is kept
    and no scheme is added: ["https://EXAMPLE.com/a/"] gives
    ["https://EXAMPLE.com/a"] and ["EXAMPLE.com/a/"] gives
    ["EXAMPLE.com/a"]. *)
Theorem normalize_url_equivalence :
  (forall (sch1 sch2 w1 w2 r : string) (k1 k2 : nat),
     In sch1 ["http://"; "https://"]%string -> In sch2 ["http://"; "https://"]%string ->
     In w1 [""; "www."]%string -> In w2 [""; "www."]%string ->
     match_ci "www." r = None -> rstrip_by is_py_space r = r ->
     RunSave.normalize_url (sch1 ++ w1 ++ r ++ slashes k1)%string =
     RunSave.normalize_url (sch2 ++ w2 ++ r ++ slashes k2)%string) /\
  RunSave.normalize_url "http://www.example.com/a/" = "https://example.com/a"%string /\
  RunSave.normalize_url "https://example.com/a" = "https://example.com/a"%string /\
  RunSave.normalize_url "https://EXAMPLE.com/a/" = "https://EXAMPLE.com/a"%string /\
  RunSave.normalize_url "EXAMPLE.com/a/" = "EXAMPLE.com/a"%string.
Proof.
  split.
  - intros sch1 sch2 w1 w2 r k1 k2 H1 H2 Hw1 Hw2 Hr Hsp.
    rewrite !NormalizeUrlFacts.normalize_url_shape by assumption. reflexivity.
  - repeat split; vm_compute; reflexivity.
Qed.

Lemma normalize_url_equivalence_witness :
  RunSave.normalize_url ("http://" ++ "www." ++ "example.com/a" ++ slashes 1)%string =
  RunSave.normalize_url ("https://" ++ "" ++ "example.com/a" ++ slashes 0)%string.
Proof.
  apply (proj1 normalize_url_equivalence); simpl; auto; reflexivity.
Defined.

(** C1 counterexample: ["http://www.example.com/a/"] and
    ["https://EXAMPLE.com/a/"] (the claim's third URL after scheme
    defaulting) get different keys. *)
Lemma normalize_url_host_case_counterexample :
  RunSave.normalize_url "http://www.example.com/a/" <>
  RunSave.normalize_url "https://EXAMPLE.com/a/".
Proof. vm_compute. intro H. discriminate H. Qed.

(** ** C3 and C4: [candidate_urls] *)

Module CandidateFacts.

Local Open Scope string_scope.
Import Pipeline.

(** The hash-independent part of [candidate_urls] for a non-empty input:
    the slash fix-up and the two variants, or [None] when [urlparse]
    raises. *)
Definition cand_core (base_url : string) : option ((string -> string) * string * string) :=
  let b0 := py_strip base_url in
  let b := if looks_like_http b0 then b0 else "https://" ++ lstrip_by is_slash b0 in
  match urlparse b with
  | None => None
  | Some u =>
      let host := py_lower (pr_netloc u) in
      let path0 := if String.eqb (pr_path u) "" then "/" else pr_path u in
      let path1 := if py_in "hukoomi.gov.qa" host then "/en/policies-and-strategies" else path0 in
      let path2 := if py_in "mcit.gov.qa" host && py_in "/policies" path1
                      && negb (py_in "reports" path1)
                   then "/en/policies-and-reports/" else path1 in
      let path := if py_in "ncsa.gov.qa" host && (String.eqb path2 "/" || String.eqb path2 "")
                  then "/en/" else path2 in
      let base_norm := "https://" ++ host ++ path in
      let alt := if startswith host "www." then "https://" ++ str_drop 4 host ++ path
                 else "https://www." ++ host ++ path in
      let fix_slash v := rstrip_by is_slash v ++ (if endswith path "/" then "/" else "") in
      Some (fix_slash, base_norm, alt)
  end.

(** The two set constructions of [candidate_urls]. *)
Definition set_pipeline (hash : string -> Z) (f : string -> string) (a b : string)
    : option (list string) :=
  match set_add_all hash empty_table [a; b] with
  | None => None
  | Some t1 =>
      match set_add_all hash empty_table (map f (set_elements t1)) with
      | None => None
      | Some t2 => Some (set_elements t2)
      end
  end.

Lemma candidate_urls_split (hash : string -> Z) (s : string) :
  candidate_urls hash s =
  if String.eqb s "" then Some []
  else match cand_core s with
       | None => None
       | Some (f, a, b) => set_pipeline hash f a b
       end.
Proof.
  unfold candidate_urls, cand_core. destruct (String.eqb s ""); [reflexivity|].
  destruct (urlparse _); reflexivity.
Qed.

Lemma nth_repeat_none (n j : nat) : nth j (repeat (@None string) n) None = None.
Proof. revert j; induction n as [|n IH]; intros [|j]; simpl; auto. Qed.

Lemma nth_table_set_repeat (n s j : nat) (v : option string) :
  (s < n)%nat ->
  nth j (table_set (repeat None n) s v) None = if Nat.eqb j s then v else None.
Proof.
  revert s j. induction n as [|n IH]; intros s j Hs; [lia|].
  destruct s as [|s]; destruct j as [|j]; simpl; auto.
  - apply nth_repeat_none.
  - apply IH. lia.
Qed.

Lemma elements_repeat_none (n : nat) : set_elements (repeat None n) = [].
Proof. induction n; simpl; auto. Qed.

Lemma elements_table_set_repeat (n s : nat) (x : string) :
  (s < n)%nat -> set_elements (table_set (repeat None n) s (Some x)) = [x].
Proof.
  revert s. induction n as [|n IH]; intros s Hs; [lia|].
  destruct s as [|s]; simpl.
  - now rewrite elements_repeat_none.
  - apply IH. lia.
Qed.

Lemma elements_table_set_none (l : Table) (j : nat) (y : string) :
  nth j l None = None -> (j < length l)%nat ->
  Permutation (set_elements (table_set l j (Some y))) (y :: set_elements l).
Proof.
  revert j. induction l as [|o l IH]; intros j Hn Hj; simpl in *; [lia|].
  destruct j as [|j].
  - subst o. simpl. reflexivity.
  - destruct o as [z|]; simpl.
    + rewrite IH by (auto; lia). apply perm_swap.
    + apply IH; auto; lia.
Qed.

Lemma table_set_length (l : Table) (i : nat) (v : option string) :
  length (table_set l i v) = length l.
Proof. revert i; induction l as [|o l IH]; intros [|i]; simpl; auto. Qed.

Lemma land7_bounds (x : Z) : (0 <= Z.land x set_mask < 8)%Z.
Proof.
  unfold set_mask. change 7%Z with (Z.ones 3). rewrite Z.land_ones by lia.
  apply Z.mod_pos_bound. lia.
Qed.

Lemma probe_empty (fuel : nat) (x : string) (i p : Z) :
  (0 < fuel)%nat ->
  probe fuel empty_table x i p = Some (table_set empty_table (Z.to_nat i) (Some x)).
Proof.
  intros Hf. destruct fuel as [|f]; [lia|]. cbn [probe].
  unfold empty_table. now rewrite nth_repeat_none.
Qed.

(** With one occupied slot [s], the probe sequence leaves [s] within
    [n + 2] steps when [perturb < 32^n]: once [perturb] is 0 the step
    [i -> 5i + 1 mod 8] has no fixed point. *)
Lemma probe_single (n fuel s : nat) (a y : string) (i p : Z) :
  (s < 8)%nat -> a <> y -> (0 <= i < 8)%Z -> (0 <= p < 32 ^ Z.of_nat n)%Z ->
  (n + 2 <= fuel)%nat ->
  exists j, (j < 8)%nat /\ j <> s /\
    probe fuel (table_set empty_table s (Some a)) y i p =
    Some (table_set (table_set empty_table s (Some a)) j (Some y)).
Proof.
  revert fuel i p. induction n as [|n IH]; intros fuel i p Hs Hay Hi Hp Hf.
  - destruct fuel as [|f]; [lia|]. cbn [probe]. unfold empty_table.
    rewrite nth_table_set_repeat by exact Hs.
    destruct (Nat.eqb (Z.to_nat i) s) eqn:E.
    2:{ exists (Z.to_nat i). split; [lia|]. split; [now apply Nat.eqb_neq | reflexivity]. }
    apply Nat.eqb_eq in E.
    destruct (String.eqb a y) eqn:Ea; [apply String.eqb_eq in Ea; contradiction|].
    (* perturb is exhausted *)
    simpl in Hp. assert (p = 0%Z) by lia. subst p.
    destruct f as [|f]; [lia|]. cbn [probe].
    rewrite nth_table_set_repeat by exact Hs.
    assert (Hne : Z.to_nat (Z.land (i * 5 + 1 + Z.shiftr 0 5) set_mask) <> s).
    { subst s. assert (i = 0 \/ i = 1 \/ i = 2 \/ i = 3 \/ i = 4 \/ i = 5 \/ i = 6 \/ i = 7)%Z
        as Hc by lia.
      destruct Hc as [->|[->|[->|[->|[->|[->|[->| ->]]]]]]]; vm_compute; discriminate. }
    pose proof (land7_bounds (i * 5 + 1 + Z.shiftr 0 5)) as Hb.
    apply Nat.eqb_neq in Hne. rewrite Hne.
    exists (Z.to_nat (Z.land (i * 5 + 1 + Z.shiftr 0 5) set_mask)).
    split; [lia|]. split; [now apply Nat.eqb_neq | reflexivity].
  - destruct fuel as [|f]; [lia|]. cbn [probe]. unfold empty_table.
    rewrite nth_table_set_repeat by exact Hs.
    destruct (Nat.eqb (Z.to_nat i) s) eqn:E.
    2:{ exists (Z.to_nat i). split; [lia|]. split; [now apply Nat.eqb_neq | reflexivity]. }
    destruct (String.eqb a y) eqn:Ea; [apply String.eqb_eq in Ea; contradiction|].
    apply IH; [exact Hs | exact Hay | apply land7_bounds | | lia].
    rewrite Z.shiftr_div_pow2 by lia. change (2 ^ 5)%Z with 32%Z.
    rewrite Nat2Z.inj_succ, Z.pow_succ_r in Hp by lia.
    split; [apply Z.div_pos; lia | apply Z.div_lt_upper_bound; lia].
Qed.

Lemma set_add_empty (hash : string -> Z) (x : string) :
  set_add hash empty_table x =
  Some (table_set empty_table (Z.to_nat (Z.land (hash x) set_mask)) (Some x)).
Proof. unfold set_add. apply probe_empty. lia. Qed.

Lemma land7_nat (x : Z) : (Z.to_nat (Z.land x set_mask) < 8)%nat.
Proof. pose proof (land7_bounds x). lia. Qed.

Lemma set_of_one (hash : string -> Z) (x : string) :
  exists t, set_add_all hash empty_table [x] = Some t /\ set_elements t = [x].
Proof.
  eexists. split.
  - simpl. rewrite set_add_empty. reflexivity.
  - apply elements_table_set_repeat, land7_nat.
Qed.

Lemma set_of_two (hash : string -> Z) (x y : string) :
  exists t, set_add_all hash empty_table [x; y] = Some t /\
    Permutation (set_elements t) (if String.eqb x y then [x] else [x; y]).
Proof.
  set (s := Z.to_nat (Z.land (hash x) set_mask)).
  assert (Hs : (s < 8)%nat) by apply land7_nat.
  destruct (String.eqb x y) eqn:Exy.
  - apply String.eqb_eq in Exy. subst y.
    exists (table_set empty_table s (Some x)). split.
    + simpl. rewrite set_add_empty. fold s.
      unfold set_add. cbn [probe]. unfold empty_table at 1.
      rewrite nth_table_set_repeat by exact Hs. fold s.
      rewrite Nat.eqb_refl, String.eqb_refl. reflexivity.
    + unfold empty_table. rewrite elements_table_set_repeat by exact Hs. reflexivity.
  - apply String.eqb_neq in Exy.
    assert (Hp : (0 <= Z.land (hash y) (Z.ones 64) < 32 ^ Z.of_nat 13)%Z).
    { rewrite Z.land_ones by lia. pose proof (Z.mod_pos_bound (hash y) (2 ^ 64)) as B.
      change (32 ^ Z.of_nat 13)%Z with (2 ^ 65)%Z.
      assert (2 ^ 64 < 2 ^ 65)%Z by (apply Z.pow_lt_mono_r; lia). lia. }
    destruct (probe_single 13 64 s x y (Z.land (hash y) set_mask) (Z.land (hash y) (Z.ones 64))
                Hs Exy (land7_bounds _) Hp ltac:(lia)) as (j & Hj & Hjs & Hprobe).
    exists (table_set (table_set empty_table s (Some x)) j (Some y)). split.
    + simpl. rewrite set_add_empty. fold s. unfold set_add. rewrite Hprobe. reflexivity.
    + unfold empty_table.
      rewrite elements_table_set_none.
      * rewrite elements_table_set_repeat by exact Hs. apply perm_swap.
      * rewrite nth_table_set_repeat by exact Hs. now apply Nat.eqb_neq in Hjs; rewrite Hjs.
      * rewrite table_set_length, repeat_length. exact Hj.
Qed.

(** The list the two sets settle to, up to order. *)
Definition canon (f : string -> string) (a b : string) : list string :=
  if String.eqb a b then [f a]
  else if String.eqb (f a) (f b) then [f a] else [f a; f b].

Lemma canon_nodup (f : string -> string) (a b : string) : NoDup (canon f a b).
Proof.
  unfold canon. destruct (String.eqb a b); [repeat constructor; simpl; tauto|].
  destruct (String.eqb (f a) (f b)) eqn:E; [repeat constructor; simpl; tauto|].
  apply String.eqb_neq in E.
  constructor; [simpl; intuition | repeat constructor; simpl; tauto].
Qed.

Lemma set_pipeline_perm (hash : string -> Z) (f : string -> string) (a b : string) :
  exists l, set_pipeline hash f a b = Some l /\ Permutation l (canon f a b).
Proof.
  unfold set_pipeline, canon.
  destruct (set_of_two hash a b) as (t1 & H1 & P1). rewrite H1.
  destruct (String.eqb a b) eqn:Eab.
  - apply Permutation_sym, Permutation_length_1_inv in P1. rewrite P1. simpl map.
    destruct (set_of_one hash (f a)) as (t2 & H2 & E2). rewrite H2.
    exists (set_elements t2). split; [reflexivity|]. rewrite E2. reflexivity.
  - apply Permutation_sym, Permutation_length_2_inv in P1.
    destruct P1 as [P1|P1]; rewrite P1; simpl map.
    + destruct (set_of_two hash (f a) (f b)) as (t2 & H2 & P2). rewrite H2.
      eexists; split; [reflexivity | exact P2].
    + destruct (set_of_two hash (f b) (f a)) as (t2 & H2 & P2). rewrite H2.
      eexists; split; [reflexivity|]. rewrite P2, String.eqb_sym.
      destruct (String.eqb (f a) (f b)) eqn:E.
      * apply String.eqb_eq in E. rewrite E. reflexivity.
      * apply perm_swap.
Qed.

End CandidateFacts.

(** C3 (as amended): for a fixed input URL, [candidate_urls] gives the
    same de-duplicated set of variants whatever the interpreter's string
    hash: it raises for one hash exactly when it raises for another, and
    two results are permutations of each other without duplicates.  The
    order of the list is the set's iteration order, fixed by the hash. *)
Theorem candidate_urls_same_set (h1 h2 : string -> Z) (s : string) :
  match Pipeline.candidate_urls h1 s, Pipeline.candidate_urls h2 s with
  | Some l1, Some l2 => Permutation l1 l2 /\ NoDup l1
  | None, None => True
  | _, _ => False
  end.
Proof.
  rewrite !CandidateFacts.candidate_urls_split.
  destruct (String.eqb s ""); [split; [reflexivity | constructor]|].
  destruct (CandidateFacts.cand_core s) as [[[f a] b]|]; [|exact I].
  destruct (CandidateFacts.set_pipeline_perm h1 f a b) as (l1 & -> & P1).
  destruct (CandidateFacts.set_pipeline_perm h2 f a b) as (l2 & -> & P2).
  split.
  - rewrite P1, P2. reflexivity.
  - apply (Permutation_NoDup (Permutation_sym P1)), CandidateFacts.canon_nodup.
Qed.

(** C3 counterexample: the order is not fixed.  Two interpreter runs
    whose (randomly keyed) string hashes place ["https://example.com/"]
    and ["https://www.example.com/"] in opposite slots of the 8-slot table
    return the two variants of ["example.com"] in opposite orders. *)
Lemma candidate_urls_order_counterexample :
  Pipeline.candidate_urls
    (fun u => if String.eqb u "https://example.com/" then 0%Z else 1%Z) "example.com" <>
  Pipeline.candidate_urls
    (fun u => if String.eqb u "https://example.com/" then 1%Z else 0%Z) "example.com".
Proof. vm_compute. intro H. discriminate H. Qed.

(** C4: the empty string gives no candidates, but the malformed input
    ["["] makes [candidate_urls] raise, whatever the hash: [urlparse]
    raises [ValueError("Invalid IPv6 URL")] on the netloc ["["] of
    ["https://["]. *)
Theorem candidate_urls_bracket_raises (hash : string -> Z) :
  Pipeline.candidate_urls hash "" = Some [] /\
  Pipeline.candidate_urls hash "[" = None /\
  Pipeline.candidate_urls hash "http://[" = None.
Proof. repeat split; reflexivity. Qed.

(** ** C5: [fetch_first_ok] *)

Module FetchFacts.

Import Pipeline.

(** The requests and sleeps the contract describes: pass [a] requests every
    candidate in list order, then sleeps [1.2 * (a + 1)] seconds unless it
    is the last of the [retries + 1] passes. *)
Definition pass_schedule (urls : list string) (retries a : Z) : list FetchEvent :=
  (map Get urls ++ (if (a <? retries)%Z then [Sleep (12 * (a + 1))%Z] else []))%list.

Definition full_schedule (urls : list string) (retries : Z) : list FetchEvent :=
  flat_map (pass_schedule urls retries) (py_range (retries + 1)).

(** Walking a schedule and stopping at the first HTTP 200 response. *)
Fixpoint first_ok (net : nat -> string -> Outcome) (n : nat) (sched : list FetchEvent)
    : list FetchEvent * option Response :=
  match sched with
  | [] => ([], None)
  | Get u :: s =>
      match net n u with
      | Resp r =>
          if (status_code r =? 200)%Z then ([Get u], Some r)
          else let '(tr, o) := first_ok net (S n) s in (Get u :: tr, o)
      | Raised _ _ => let '(tr, o) := first_ok net (S n) s in (Get u :: tr, o)
      end
  | e :: s => let '(tr, o) := first_ok net n s in (e :: tr, o)
  end.

Lemma first_ok_sleep (net : nat -> string -> Outcome) (n : nat) (b : bool) (d : Z)
    (rest : list FetchEvent) :
  first_ok net n ((if b then [Sleep d] else []) ++ rest)%list =
  (((if b then [Sleep d] else []) ++ fst (first_ok net n rest))%list, snd (first_ok net n rest)).
Proof. destruct b; simpl; destruct (first_ok net n rest); reflexivity. Qed.

Lemma fetch_pass_first_ok (net : nat -> string -> Outcome) (urls : list string) :
  forall n last rest,
  match fetch_pass net n urls last with
  | (tr, n', inl r) => first_ok net n (map Get urls ++ rest)%list = (tr, Some r)
  | (tr, n', inr _) =>
      first_ok net n (map Get urls ++ rest)%list =
      ((tr ++ fst (first_ok net n' rest))%list, snd (first_ok net n' rest))
  end.
Proof.
  induction urls as [|u us IH]; intros n last rest.
  - simpl. destruct (first_ok net n rest); reflexivity.
  - simpl. destruct (net n u) as [r|nm msg].
    + destruct (status_code r =? 200)%Z; [reflexivity|].
      specialize (IH (S n) (Some (HttpStatus (status_code r) u)) rest).
      destruct (fetch_pass net (S n) us _) as [[tr n'] [r'|le]]; rewrite IH; reflexivity.
    + specialize (IH (S n) (Some (ExcFor nm msg u)) rest).
      destruct (fetch_pass net (S n) us _) as [[tr n'] [r'|le]]; rewrite IH; reflexivity.
Qed.

Lemma fetch_passes_first_ok (net : nat -> string -> Outcome) (urls : list string) (retries : Z) :
  forall attempts n last,
  match fetch_passes net n urls retries attempts last with
  | (tr, inl r) => first_ok net n (flat_map (pass_schedule urls retries) attempts) = (tr, Some r)
  | (tr, inr l) =>
      first_ok net n (flat_map (pass_schedule urls retries) attempts) = (tr, None) /\
      ((attempts = [] /\ l = last) \/ exists le, l = Some le)
  end.
Proof.
  induction attempts as [|a rest IH]; intros n last.
  - simpl. split; [reflexivity | now left].
  - cbn [fetch_passes flat_map].
    change (pass_schedule urls retries a) with
      (map Get urls ++ (if (a <? retries)%Z then [Sleep (12 * (a + 1))%Z] else []))%list.
    rewrite <- app_assoc.
    pose proof (fetch_pass_first_ok net urls n None
                  ((if (a <? retries)%Z then [Sleep (12 * (a + 1))%Z] else [])
                   ++ flat_map (pass_schedule urls retries) rest)%list) as Hp.
    destruct (fetch_pass net n urls None) as [[tr1 n1] [r|le]]; [exact Hp|].
    rewrite Hp, first_ok_sleep.
    specialize (IH n1 (Some le)).
    destruct (fetch_passes net n1 urls retries rest (Some le)) as [tr2 [r|l]].
    + cbn [fst snd]. rewrite IH. cbn [fst snd]. reflexivity.
    + destruct IH as [IH Hl]. cbn [fst snd]. rewrite IH. cbn [fst snd]. split; [reflexivity|].
      right. destruct Hl as [[_ ->]|Hl]; [now exists le | exact Hl].
Qed.

End FetchFacts.

(** C5: with a retry budget [retries >= 0], [fetch_first_ok] never raises;
    its requests and sleeps are those of the schedule (each pass tries the
    candidates in list order, pass [a < retries] is followed by a sleep of
    [1.2 * (a + 1)] seconds) cut right after the first HTTP 200 response,
    which is what it returns; when no request gets a 200 it returns
    [None], after at most one log line with the last error. *)
Theorem fetch_first_ok_contract (net : nat -> string -> Pipeline.Outcome)
    (urls : list string) (retries : Z) :
  (0 <= retries)%Z ->
  let '(tr, res) := FetchFacts.first_ok net 0 (FetchFacts.full_schedule urls retries) in
  exists lg,
    Pipeline.fetch_first_ok net urls retries = PyOk ((tr ++ lg)%list, res) /\
    (lg = [] \/ (res = None /\ exists e, lg = [Pipeline.LogErr e])).
Proof.
  intros Hr. unfold Pipeline.fetch_first_ok, FetchFacts.full_schedule.
  pose proof (FetchFacts.fetch_passes_first_ok net urls retries
                (Pipeline.py_range (retries + 1)) 0 None) as H.
  destruct (Pipeline.fetch_passes net 0 urls retries (Pipeline.py_range (retries + 1)) None)
    as [tr [r|l]].
  - rewrite H. exists []. rewrite app_nil_r. split; [reflexivity | now left].
  - destruct H as [H Hl]. rewrite H.
    assert (Hne : Pipeline.py_range (retries + 1) <> []).
    { unfold Pipeline.py_range. destruct (Z.to_nat (retries + 1)) eqn:E; [lia | discriminate]. }
    destruct Hl as [[Hnil _]|[le ->]]; [contradiction|].
    destruct le as [e|].
    + exists [Pipeline.LogErr e]. split; [reflexivity|]. right. eauto.
    + exists []. rewrite app_nil_r. split; [reflexivity | now left].
Qed.

Lemma fetch_first_ok_contract_witness :
  (0 <= 2)%Z /\
  let '(tr, res) := FetchFacts.first_ok (fun n _ => Pipeline.Raised "ConnectError" "down") 0
                      (FetchFacts.full_schedule ["https://a.example/"]%string 2) in
  exists lg,
    Pipeline.fetch_first_ok (fun n _ => Pipeline.Raised "ConnectError" "down")
      ["https://a.example/"]%string 2 = PyOk ((tr ++ lg)%list, res) /\
    (lg = [] \/ (res = None /\ exists e, lg = [Pipeline.LogErr e])).
Proof.
  split; [lia|].
  exact (fetch_first_ok_contract (fun n _ => Pipeline.Raised "ConnectError" "down")
           ["https://a.example/"]%string 2 ltac:(lia)).
Defined.

(** ** C2: [save_items] *)

Module SaveFacts.

Import RunSave.

Definition sdoc (s : StoredRow) : string := r_doc_url (s_row s).

Definition upd (r : Row) (s : StoredRow) : StoredRow :=
  if same_doc r s then mkStored (s_id s) r (s_enriched_at s) (s_regulation_id s) else s.

Lemma sdoc_upd (r : Row) (s : StoredRow) : sdoc (upd r s) = sdoc s.
Proof.
  unfold upd, sdoc, same_doc. destruct (String.eqb _ _) eqn:E; [|reflexivity].
  apply String.eqb_eq in E. simpl. congruence.
Qed.


Lemma upsert_one_unfold (st : Store) (r : Row) :
  upsert_one st r =
  if existsb (same_doc r) (st_rows st) then mkStore (map (upd r) (st_rows st)) (st_next_id st)
  else mkStore (st_rows st ++ [mkStored (st_next_id st) r None None])%list (st_next_id st + 1).
Proof. reflexivity. Qed.





Lemma count_not_in (l : list StoredRow) (d : string) :
  existsb (fun s => String.eqb (sdoc s) d) l = false ->
  length (filter (fun s => String.eqb (sdoc s) d) l) = 0%nat.
Proof.
  induction l as [|s l IH]; simpl; [reflexivity|].
  destruct (String.eqb (sdoc s) d); [discriminate|]. exact IH.
Qed.


Lemma existsb_same_doc (l : list StoredRow) (r : Row) :
  existsb (same_doc r) l = true <-> In (r_doc_url r) (map sdoc l).
Proof.
  rewrite existsb_exists, in_map_iff. unfold same_doc, sdoc. split.
  - intros (s & Hin & E). apply String.eqb_eq in E. eauto.
  - intros (s & E & Hin). exists s. split; [exact Hin|]. apply String.eqb_eq. exact E.
Qed.

Lemma map_sdoc_upd (r : Row) (l : list StoredRow) : map sdoc (map (upd r) l) = map sdoc l.
Proof. rewrite map_map. apply map_ext. apply sdoc_upd. Qed.

Lemma upsert_one_nodup (st : Store) (r : Row) :
  NoDup (map sdoc (st_rows st)) ->
  NoDup (map sdoc (st_rows (upsert_one st r))) /\ In (r_doc_url r) (map sdoc (st_rows (upsert_one st r))).
Proof.
  intros Hnd. rewrite upsert_one_unfold.
  destruct (existsb (same_doc r) (st_rows st)) eqn:E; simpl.
  - rewrite map_sdoc_upd. split; [exact Hnd|]. now apply existsb_same_doc.
  - rewrite map_app. simpl. split.
    + apply NoDup_app; [exact Hnd | constructor; [simpl; tauto | constructor] |].
      intros x Hx [Hy|[]]. subst x. unfold sdoc in Hx. simpl in Hx.
      apply existsb_same_doc in Hx. congruence.
    + apply in_or_app. right. left. reflexivity.
Qed.


Lemma upsert_one_other (st : Store) (r : Row) (s : StoredRow) :
  In s (st_rows st) -> sdoc s <> r_doc_url r -> In s (st_rows (upsert_one st r)).
Proof.
  intros Hin Hd. rewrite upsert_one_unfold.
  destruct (existsb (same_doc r) (st_rows st)); simpl.
  - replace s with (upd r s) at 1; [now apply in_map|].
    unfold upd, same_doc. change (r_doc_url (s_row s)) with (sdoc s).
    destruct (String.eqb (sdoc s) (r_doc_url r)) eqn:E; [|reflexivity].
    apply String.eqb_eq in E. contradiction.
  - apply in_or_app. now left.
Qed.




End SaveFacts.


Module C2Data.

Local Open Scope string_scope.

Definition c2_item (title : string) : RunSave.IngestItem :=
  RunSave.mkItem (Some "UAE") (Some "CBUAE") (Some title)
    (Some "http://www.example.com/a/") (Some "https://example.com") None None.

Definition c2_store : RunSave.Store :=
  RunSave.mkStore
    [RunSave.mkStored 7
       (RunSave.mkRow (Some "UAE") (Some "CBUAE") "old" "https://example.com/a"
          "https://example.com" "html" None)
       (Some "2024-01-02T00:00:00+00:00") (Some "reg-1");
     RunSave.mkStored 8
       (RunSave.mkRow (Some "KSA") (Some "SAMA") "other" "https://example.com/b"
          "https://example.com" "html" None) None None]
    9.

Definition c2_blank_item : RunSave.IngestItem :=
  RunSave.mkItem None None None (Some "/") None None None.

End C2Data.

Import C2Data.



(* ------------------------------------------------------------------ *)
(** ** [check_silent_sources] *)

Module AlertFacts.

Import Alerts.

Local Open Scope Z_scope.

Lemma key_eqb_eq (k1 k2 : Key) : key_eqb k1 k2 = true <-> k1 = k2.
Proof.
  destruct k1 as [[a1 b1] c1], k2 as [[a2 b2] c2]. simpl.
  rewrite !andb_true_iff, !String.eqb_eq. split.
  - intros [[-> ->] ->]. reflexivity.
  - intros E. injection E as -> -> ->. tauto.
Qed.

Lemma existsb_key (k : Key) (acc : list (Key * datetime)) :
  existsb (fun e => key_eqb (fst e) k) acc = true <-> In k (map fst acc).
Proof.
  rewrite existsb_exists, in_map_iff. split.
  - intros (e & Hin & E). apply key_eqb_eq in E. eauto.
  - intros (e & E & Hin). exists e. split; [exact Hin|]. now apply key_eqb_eq.
Qed.

Lemma truthy_some (o : option string) (s : string) : truthy o = Some s -> o = Some s /\ s <> ""%string.
Proof.
  destruct o as [s'|]; simpl; [|discriminate].
  destruct (String.eqb s' "") eqn:E; [discriminate|]. intros H. injection H as <-.
  split; [reflexivity|]. now apply String.eqb_neq.
Qed.

Section Facts.

Variable fromisoformat : string -> option datetime.

(** Where an entry of [latest_by_source] comes from. *)
Definition row_gives (r : DbRow) (k : Key) (dt : datetime) : Prop :=
  truthy (c_country r) = Some (fst (fst k)) /\ truthy (c_authority r) = Some (snd (fst k)) /\
  truthy (c_source_url r) = Some (snd k) /\
  exists ts, truthy (c_created_at r) = Some ts /\
             fromisoformat (replace_char "Z" "+00:00" ts) = Some dt.

Lemma latest_loop_nodup (rows : list DbRow) (acc : list (Key * datetime)) :
  NoDup (map fst acc) -> NoDup (map fst (latest_loop fromisoformat rows acc)).
Proof.
  revert acc. induction rows as [|r rs IH]; intros acc Hnd; simpl; [exact Hnd|].
  destruct (truthy (c_country r)) as [a|]; [|now apply IH].
  destruct (truthy (c_authority r)) as [b|]; [|now apply IH].
  destruct (truthy (c_source_url r)) as [c|]; [|now apply IH].
  destruct (existsb (fun e => key_eqb (fst e) (a, b, c)) acc) eqn:E; [now apply IH|].
  destruct (truthy (c_created_at r)) as [ts|]; [|now apply IH].
  destruct (fromisoformat (replace_char "Z" "+00:00" ts)) as [dt|]; [|now apply IH].
  apply IH. rewrite map_app. simpl. apply NoDup_app; [exact Hnd| repeat constructor; simpl; tauto |].
  intros x Hx [Hy|[]]. subst x. apply existsb_key in Hx. congruence.
Qed.

Lemma latest_loop_origin (rows : list DbRow) (acc : list (Key * datetime)) (k : Key) (dt : datetime) :
  In (k, dt) (latest_loop fromisoformat rows acc) ->
  In (k, dt) acc \/ exists r, In r rows /\ row_gives r k dt.
Proof.
  revert acc. induction rows as [|r rs IH]; intros acc; simpl; [tauto|].
  assert (Hup : forall acc', In (k, dt) (latest_loop fromisoformat rs acc') ->
                  In (k, dt) acc' \/ exists r', (r = r' \/ In r' rs) /\ row_gives r' k dt)
    by (intros acc' H; destruct (IH acc' H) as [H'|(r' & H1 & H2)]; [tauto | right; eauto]).
  destruct (truthy (c_country r)) as [a|] eqn:Ea; [|apply Hup].
  destruct (truthy (c_authority r)) as [b|] eqn:Eb; [|apply Hup].
  destruct (truthy (c_source_url r)) as [c|] eqn:Ec; [|apply Hup].
  destruct (existsb (fun e => key_eqb (fst e) (a, b, c)) acc); [apply Hup|].
  destruct (truthy (c_created_at r)) as [ts|] eqn:Et; [|apply Hup].
  destruct (fromisoformat (replace_char "Z" "+00:00" ts)) as [dt'|] eqn:Ed; [|apply Hup].
  intros H. destruct (Hup _ H) as [H'|H']; [|tauto].
  apply in_app_or in H' as [H'|[H'|[]]]; [tauto|].
  injection H' as <- <-. right. exists r. split; [now left|].
  unfold row_gives. simpl. repeat split; auto. exists ts. auto.
Qed.

Lemma latest_by_source_nodup (rows : list DbRow) :
  NoDup (map fst (latest_by_source fromisoformat rows)).
Proof. apply latest_loop_nodup. constructor. Qed.

Lemma latest_by_source_origin (rows : list DbRow) (k : Key) (dt : datetime) :
  In (k, dt) (latest_by_source fromisoformat rows) -> exists r, In r rows /\ row_gives r k dt.
Proof. intros H. destruct (latest_loop_origin rows [] k dt H) as [[]|H']. exact H'. Qed.

Definition alert_key (a : Alert) : Key := (a_country a, a_authority a, a_source_url a).

(** Every alert of [silent_loop] is built from one of its entries, which is
    aware and older than the entry's threshold. *)
Lemma silent_loop_sound (now dflt : Z) (ov : list (string * Z)) (es : list (Key * datetime))
    (alerts : list Alert) (a : Alert) :
  silent_loop now dflt ov es = PyOk alerts -> In a alerts ->
  In (alert_key a, a_last_item_at a) es /\
  a_threshold_h a = dict_get ov (a_authority a) dflt /\
  exists t, a_last_item_at a = Aware t /\ t < now - a_threshold_h a * us_per_hour.
Proof.
  revert alerts. induction es as [|[[[c au] su] dt] es IH]; intros alerts; simpl.
  - intros H. injection H as <-. intros [].
  - destruct (_ || _); [discriminate|].
    destruct dt as [t|t]; [|discriminate].
    destruct (silent_loop now dflt ov es) as [rest|e]; [|discriminate].
    destruct (t <? now - dict_get ov au dflt * us_per_hour) eqn:Lt; intros H; injection H as <-.
    + intros [<-|Hin].
      * unfold alert_key. simpl. split; [now left|]. split; [reflexivity|].
        exists t. split; [reflexivity|]. now apply Z.ltb_lt.
      * destruct (IH rest eq_refl Hin) as (H1 & H2). split; [now right | exact H2].
    + intros Hin. destruct (IH rest eq_refl Hin) as (H1 & H2). split; [now right | exact H2].
Qed.

Lemma flagged_in (alerts : list Alert) (k : Key) :
  flagged alerts k = true <-> exists a, In a alerts /\ alert_key a = k.
Proof.
  unfold flagged. rewrite existsb_exists. split.
  - intros (a & Hin & E). apply key_eqb_eq in E. eauto.
  - intros (a & Hin & E). exists a. split; [exact Hin|]. now apply key_eqb_eq.
Qed.

(** For each aware entry, it is flagged exactly when it is strictly older
    than its threshold. *)
Lemma silent_loop_flagged (now dflt : Z) (ov : list (string * Z)) (es : list (Key * datetime))
    (alerts : list Alert) (k : Key) (t : Z) :
  NoDup (map fst es) ->
  silent_loop now dflt ov es = PyOk alerts -> In (k, Aware t) es ->
  flagged alerts k = true <-> t < now - dict_get ov (snd (fst k)) dflt * us_per_hour.
Proof.
  intros Hnd Hs Hin. split.
  - intros Hf. apply flagged_in in Hf as (a & Ha & Hk).
    destruct (silent_loop_sound now dflt ov es alerts a Hs Ha) as (Hin' & Hthr & t' & Ht' & Hlt).
    rewrite Ht' in Hin'. rewrite Hk in Hin'.
    assert (Aware t' = Aware t) as E.
    { clear -Hnd Hin Hin'. induction es as [|[k' d'] es IH]; [destruct Hin|].
      simpl in Hnd. inversion Hnd as [|? ? Hn Hnd']; subst.
      destruct Hin as [E1|Hin], Hin' as [E2|Hin'].
      - congruence.
      - injection E1 as -> ->. exfalso. apply Hn. change k with (fst (k, Aware t')). now apply in_map.
      - injection E2 as -> ->. exfalso. apply Hn. change k with (fst (k, Aware t)). now apply in_map.
      - now apply IH. }
    injection E as ->. rewrite Hthr in Hlt. subst k. exact Hlt.
  - intros Hlt. apply flagged_in.
    revert alerts Hs. induction es as [|[[[c au] su] dt] es IH]; intros alerts Hs; [destruct Hin|].
    simpl in Hnd. inversion Hnd as [|? ? Hn Hnd']; subst.
    simpl in Hs. destruct (_ || _); [discriminate|].
    destruct dt as [t0|t0]; [|discriminate].
    destruct (silent_loop now dflt ov es) as [rest|e]; [|discriminate].
    destruct Hin as [E|Hin].
    + injection E as <- <-. simpl in Hlt. apply Z.ltb_lt in Hlt. rewrite Hlt in Hs.
      injection Hs as <-. eexists. split; [now left|]. reflexivity.
    + destruct (IH Hnd' Hin rest eq_refl) as (a & Ha & Hk).
      exists a. split; [|exact Hk].
      destruct (t0 <? _); injection Hs as <-; [now right | exact Ha].
Qed.

Lemma check_flagged (rows : list DbRow) (dflt : Z) (ov : list (string * Z)) (now : Z)
    (alerts : list Alert) (k : Key) (t : Z) :
  check_silent_sources fromisoformat rows dflt ov now = PyOk alerts ->
  In (k, Aware t) (latest_by_source fromisoformat rows) ->
  flagged alerts k = true <-> t < now - dict_get ov (snd (fst k)) dflt * us_per_hour.
Proof. intros Hs Hin. apply (silent_loop_flagged now dflt ov (latest_by_source fromisoformat rows) alerts k t); auto using latest_by_source_nodup. Qed.

End Facts.

Lemma dict_get_absent (ov : list (string * Z)) (k : string) (dflt : Z) :
  ~ In k (map fst ov) -> dict_get ov k dflt = dflt.
Proof.
  induction ov as [|[k' v] ov IH]; simpl; intros Hn; [reflexivity|].
  destruct (String.eqb k' k) eqn:E; [apply String.eqb_eq in E; tauto|]. apply IH. tauto.
Qed.

End AlertFacts.

Module AlertData.

Import Alerts.

Local Open Scope string_scope.
Local Open Scope Z_scope.

(** 2023-11-14T22:13:20Z *)
Definition now0 : Z := 1700000000 * 1000000.

(** A [fromisoformat] defined on the timestamps used below. *)
Definition iso_table : list (string * datetime) :=
  [("2023-11-11T22:13:19+00:00", Aware (now0 - 72 * us_per_hour - 1000000));
   ("2023-11-11T22:13:21+00:00", Aware (now0 - 72 * us_per_hour + 1000000));
   ("2023-11-12T20:13:20+00:00", Aware (now0 - 50 * us_per_hour))].

Fixpoint iso_lookup (t : list (string * datetime)) (s : string) : option datetime :=
  match t with
  | [] => None
  | (k, v) :: t' => if String.eqb k s then Some v else iso_lookup t' s
  end.

Definition fromiso0 (s : string) : option datetime := iso_lookup iso_table s.

Definition row (ctry auth src ts : string) : DbRow :=
  mkDbRow (Some ctry) (Some auth) (Some src) (Some ts).

Definition rows6 : list DbRow :=
  [row "UAE" "CBUAE" "https://a.example/" "2023-11-11T22:13:19Z";
   row "UAE" "CBUAE" "https://b.example/" "2023-11-11T22:13:21Z"].

Definition rows7 : list DbRow :=
  [row "UAE" "PSA" "https://p.example/" "2023-11-12T20:13:20Z";
   row "UAE" "CBUAE" "https://c.example/" "2023-11-12T20:13:20Z"].

Definition ov7 : list (string * Z) := [("PSA", 48)].

Definition result_or_nil (r : py_result (list Alert)) : list Alert :=
  match r with PyOk l => l | PyRaise _ => [] end.

Definition alerts6 : list Alert := result_or_nil (check_silent_sources fromiso0 rows6 72 [] now0).
Definition alerts7 : list Alert := result_or_nil (check_silent_sources fromiso0 rows7 72 ov7 now0).

Definition key6a : Key := ("UAE", "CBUAE", "https://a.example/").
Definition key7p : Key := ("UAE", "PSA", "https://p.example/").
Definition key7o : Key := ("UAE", "CBUAE", "https://c.example/").

End AlertData.

Import AlertData.

(** C6.  Whenever [check_silent_sources] returns (it raises [TypeError] if
    some group's timestamp is offset-naive), a group of [latest_by_source]
    whose last item is at [t] is reported exactly when
    [t < now - thr], [thr] being the override for its authority or else the
    default, i.e. when [now - t] strictly exceeds the threshold.  With the
    default 72 h and no override for the authority: [now - 72h - 1s] is
    flagged, [now - 72h + 1s] and [now - 72h] are not. *)
Theorem check_silent_sources_threshold (fromisoformat : string -> option Alerts.datetime)
    (rows : list Alerts.DbRow) (dflt : Z) (ov : list (string * Z)) (now : Z)
    (alerts : list Alerts.Alert) (k : Alerts.Key) (t : Z) :
  Alerts.check_silent_sources fromisoformat rows dflt ov now = PyOk alerts ->
  In (k, Alerts.Aware t) (Alerts.latest_by_source fromisoformat rows) ->
  (Alerts.flagged alerts k = true <->
     (t < now - Alerts.dict_get ov (snd (fst k)) dflt * Alerts.us_per_hour)%Z) /\
  (dflt = 72%Z -> ~ In (snd (fst k)) (map fst ov) ->
     (t = (now - 72 * Alerts.us_per_hour - 1000000)%Z -> Alerts.flagged alerts k = true) /\
     (t = (now - 72 * Alerts.us_per_hour + 1000000)%Z -> Alerts.flagged alerts k = false) /\
     (t = (now - 72 * Alerts.us_per_hour)%Z -> Alerts.flagged alerts k = false)).
Proof.
  intros Hs Hin.
  pose proof (AlertFacts.check_flagged fromisoformat rows dflt ov now alerts k t Hs Hin) as Hf.
  split; [exact Hf|]. intros -> Hn.
  rewrite (AlertFacts.dict_get_absent ov _ 72 Hn) in Hf.
  split; [|split]; intros ->.
  - apply Hf. unfold Alerts.us_per_hour. lia.
  - apply Bool.not_true_is_false. rewrite Hf. unfold Alerts.us_per_hour. lia.
  - apply Bool.not_true_is_false. rewrite Hf. unfold Alerts.us_per_hour. lia.
Qed.

Lemma check_silent_sources_threshold_witness :
  Alerts.check_silent_sources fromiso0 rows6 72 [] now0 = PyOk alerts6 /\
  In (key6a, Alerts.Aware (now0 - 72 * Alerts.us_per_hour - 1000000)%Z)
     (Alerts.latest_by_source fromiso0 rows6) /\
  ((Alerts.flagged alerts6 key6a = true <->
     (now0 - 72 * Alerts.us_per_hour - 1000000 <
        now0 - Alerts.dict_get [] (snd (fst key6a)) 72 * Alerts.us_per_hour)%Z) /\
   (72%Z = 72%Z -> ~ In (snd (fst key6a)) (map fst ([] : list (string * Z))) ->
     ((now0 - 72 * Alerts.us_per_hour - 1000000)%Z = (now0 - 72 * Alerts.us_per_hour - 1000000)%Z ->
        Alerts.flagged alerts6 key6a = true) /\
     ((now0 - 72 * Alerts.us_per_hour - 1000000)%Z = (now0 - 72 * Alerts.us_per_hour + 1000000)%Z ->
        Alerts.flagged alerts6 key6a = false) /\
     ((now0 - 72 * Alerts.us_per_hour - 1000000)%Z = (now0 - 72 * Alerts.us_per_hour)%Z ->
        Alerts.flagged alerts6 key6a = false))).
Proof.
  assert (H1 : Alerts.check_silent_sources fromiso0 rows6 72 [] now0 = PyOk alerts6)
    by (vm_compute; reflexivity).
  assert (H2 : In (key6a, Alerts.Aware (now0 - 72 * Alerts.us_per_hour - 1000000)%Z)
                  (Alerts.latest_by_source fromiso0 rows6)) by (vm_compute; left; reflexivity).
  split; [exact H1|]. split; [exact H2|].
  exact (check_silent_sources_threshold fromiso0 rows6 72 [] now0 alerts6 key6a _ H1 H2).
Defined.

(** C7.  With the override ["PSA" -> 48] and the default 72 h: a group of
    authority ["PSA"] whose last item is 50 h old is flagged, and a group of
    another authority (no override) whose last item is 50 h old is not. *)
Theorem check_silent_sources_override (fromisoformat : string -> option Alerts.datetime)
    (rows : list Alerts.DbRow) (now : Z) (alerts : list Alerts.Alert)
    (kp ko : Alerts.Key) (tp to : Z) :
  Alerts.check_silent_sources fromisoformat rows 72 [("PSA"%string, 48%Z)] now = PyOk alerts ->
  In (kp, Alerts.Aware tp) (Alerts.latest_by_source fromisoformat rows) ->
  snd (fst kp) = "PSA"%string -> tp = (now - 50 * Alerts.us_per_hour)%Z ->
  In (ko, Alerts.Aware to) (Alerts.latest_by_source fromisoformat rows) ->
  snd (fst ko) <> "PSA"%string -> to = (now - 50 * Alerts.us_per_hour)%Z ->
  Alerts.flagged alerts kp = true /\ Alerts.flagged alerts ko = false.
Proof.
  intros Hs Hp Ap Tp Ho Ao To. split.
  - apply (AlertFacts.check_flagged fromisoformat rows 72 _ now alerts kp tp Hs Hp).
    simpl. rewrite Ap. simpl. subst tp. unfold Alerts.us_per_hour. lia.
  - apply Bool.not_true_is_false.
    rewrite (AlertFacts.check_flagged fromisoformat rows 72 _ now alerts ko to Hs Ho).
    rewrite AlertFacts.dict_get_absent by (simpl; intros [E|[]]; congruence).
    subst to. unfold Alerts.us_per_hour. lia.
Qed.

Lemma check_silent_sources_override_witness :
  Alerts.check_silent_sources fromiso0 rows7 72 [("PSA"%string, 48%Z)] now0 = PyOk alerts7 /\
  Alerts.flagged alerts7 key7p = true /\ Alerts.flagged alerts7 key7o = false.
Proof.
  assert (Hs : Alerts.check_silent_sources fromiso0 rows7 72 [("PSA"%string, 48%Z)] now0 = PyOk alerts7)
    by (vm_compute; reflexivity).
  split; [exact Hs|].
  apply (check_silent_sources_override fromiso0 rows7 now0 alerts7 key7p key7o
           (now0 - 50 * Alerts.us_per_hour) (now0 - 50 * Alerts.us_per_hour) Hs).
  - vm_compute. left. reflexivity.
  - reflexivity.
  - reflexivity.
  - vm_compute. right. left. reflexivity.
  - vm_compute. discriminate.
  - reflexivity.
Defined.

(** C8.  Every alert of a successful [check_silent_sources] comes from a
    queried row whose country, authority and source_url are truthy and equal
    to the alert's, whose [created_at] is truthy and parses (after the
    ["Z"] replacement) to the alert's [last_item_at]; so a key with no such
    row is never reported. *)
Theorem check_silent_sources_provenance (fromisoformat : string -> option Alerts.datetime)
    (rows : list Alerts.DbRow) (dflt : Z) (ov : list (string * Z)) (now : Z)
    (alerts : list Alerts.Alert) :
  Alerts.check_silent_sources fromisoformat rows dflt ov now = PyOk alerts ->
  (forall a, In a alerts -> exists r, In r rows /\
     AlertFacts.row_gives fromisoformat r (AlertFacts.alert_key a) (Alerts.a_last_item_at a)) /\
  (forall k, (forall r dt, In r rows -> ~ AlertFacts.row_gives fromisoformat r k dt) ->
     Alerts.flagged alerts k = false).
Proof.
  intros Hs.
  assert (Hp : forall a, In a alerts -> exists r, In r rows /\
     AlertFacts.row_gives fromisoformat r (AlertFacts.alert_key a) (Alerts.a_last_item_at a)).
  { intros a Ha.
    destruct (AlertFacts.silent_loop_sound now dflt ov _ alerts a Hs Ha) as [Hin _].
    exact (AlertFacts.latest_by_source_origin fromisoformat rows _ _ Hin). }
  split; [exact Hp|].
  intros k Hn. apply Bool.not_true_is_false. intros Hf.
  apply AlertFacts.flagged_in in Hf as (a & Ha & <-).
  destruct (Hp a Ha) as (r & Hr & Hg). exact (Hn r _ Hr Hg).
Qed.

Lemma check_silent_sources_provenance_witness :
  Alerts.check_silent_sources fromiso0 rows6 72 [] now0 = PyOk alerts6 /\
  (forall a, In a alerts6 -> exists r, In r rows6 /\
     AlertFacts.row_gives fromiso0 r (AlertFacts.alert_key a) (Alerts.a_last_item_at a)) /\
  (forall k, (forall r dt, In r rows6 -> ~ AlertFacts.row_gives fromiso0 r k dt) ->
     Alerts.flagged alerts6 k = false).
Proof.
  assert (Hs : Alerts.check_silent_sources fromiso0 rows6 72 [] now0 = PyOk alerts6)
    by (vm_compute; reflexivity).
  split; [exact Hs|].
  exact (check_silent_sources_provenance fromiso0 rows6 72 [] now0 alerts6 Hs).
Defined.

(** C9.  Once the environment check passes, with [--only-if-issues], no
    failed run and no silent source, and whatever the pending count, [main]
    logs the start of its run, prints the note, updates its [runs_log] row
    with zero counts, the note and [finished_at], sends no mail (neither
    sent nor dry-run) and exits normally. *)
Theorem main_only_if_issues_suppresses (args : Alerts.Args) (run_id pending : Z)
    (mail : py_result unit) (finished_at : string) :
  Alerts.arg_only_if_issues args = true ->
  let '(evs, ex) := Alerts.main true args run_id (PyOk pending) (PyOk []) (PyOk []) mail finished_at in
  evs = [Alerts.RunInserted "alert" 0 0 "started"; Alerts.Printed Alerts.no_problems_note;
         Alerts.RunUpdated run_id 0 0 (Some Alerts.no_problems_note) finished_at] /\
  ex = Alerts.ExitCode 0 /\
  (forall ev, In ev evs -> forall p f s, ev <> Alerts.MailSent p f s /\ ev <> Alerts.MailDryRun p f s).
Proof.
  intros H. unfold Alerts.main. rewrite H. simpl.
  split; [reflexivity|]. split; [reflexivity|].
  intros ev Hin p f s. destruct Hin as [<-|[<-|[<-|[]]]]; split; discriminate.
Qed.

Lemma main_only_if_issues_suppresses_witness :
  Alerts.arg_only_if_issues (Alerts.mkArgs None 72 None 24 true false) = true /\
  let '(evs, ex) := Alerts.main true (Alerts.mkArgs None 72 None 24 true false) 5 (PyOk 3%Z)
                      (PyOk []) (PyOk []) (PyOk tt) "2023-11-14T22:13:20+00:00" in
  evs = [Alerts.RunInserted "alert" 0 0 "started"; Alerts.Printed Alerts.no_problems_note;
         Alerts.RunUpdated 5 0 0 (Some Alerts.no_problems_note) "2023-11-14T22:13:20+00:00"] /\
  ex = Alerts.ExitCode 0 /\
  (forall ev, In ev evs -> forall p f s, ev <> Alerts.MailSent p f s /\ ev <> Alerts.MailDryRun p f s).
Proof.
  split; [reflexivity|].
  exact (main_only_if_issues_suppresses (Alerts.mkArgs None 72 None 24 true false) 5 3
           (PyOk tt) "2023-11-14T22:13:20+00:00" eq_refl).
Defined.

(* ================================================================== *)
(** * Further properties of the code *)

(* ------------------------------------------------------------------ *)
(** ** [fetch_first_ok] when no request gets an HTTP 200 *)

Module FetchFailFacts.

Import Pipeline FetchFacts.

(** [last_err] as set from the outcome of a request to [u]. *)
Definition err_of (o : Outcome) (u : string) : FetchErr :=
  match o with
  | Resp r => HttpStatus (status_code r) u
  | Raised nm msg => ExcFor nm msg u
  end.

(** [last_err] at the end of a pass started at request [n]. *)
Fixpoint pass_last (net : nat -> string -> Outcome) (n : nat) (urls : list string)
    (last : option FetchErr) : option FetchErr :=
  match urls with
  | [] => last
  | u :: us => pass_last net (S n) us (Some (err_of (net n u) u))
  end.

Definition no_200 (net : nat -> string -> Outcome) : Prop :=
  forall n u r, net n u = Resp r -> status_code r <> 200%Z.

Section NoOk.

Variable net : nat -> string -> Outcome.
Hypothesis Hno : no_200 net.

Lemma fetch_pass_no200 (urls : list string) :
  forall n last, fetch_pass net n urls last = (map Get urls, (n + length urls)%nat, inr (pass_last net n urls last)).
Proof.
  induction urls as [|u us IH]; intros n last; simpl.
  - rewrite Nat.add_0_r. reflexivity.
  - destruct (net n u) as [r|nm msg] eqn:E.
    + assert (Hs : (status_code r =? 200)%Z = false) by (apply Z.eqb_neq; exact (Hno n u r E)).
      rewrite Hs, IH. rewrite Nat.add_succ_r. reflexivity.
    + rewrite IH. rewrite Nat.add_succ_r. reflexivity.
Qed.

Lemma pass_last_nonempty (urls : list string) :
  forall n last, urls <> [] ->
  pass_last net n urls last =
  Some (err_of (net (n + length urls - 1)%nat (List.last urls ""%string)) (List.last urls ""%string)).
Proof.
  induction urls as [|u us IH]; intros n last Hne; [contradiction|].
  destruct us as [|u' us'].
  - simpl. rewrite Nat.add_1_r, Nat.sub_1_r. reflexivity.
  - change (pass_last net n (u :: u' :: us') last)
      with (pass_last net (S n) (u' :: us') (Some (err_of (net n u) u))).
    rewrite IH by discriminate.
    replace (S n + length (u' :: us') - 1)%nat with (n + length (u :: u' :: us') - 1)%nat
      by (simpl; lia).
    reflexivity.
Qed.

Lemma fetch_passes_no200 (urls : list string) (retries : Z) :
  forall attempts n last,
  fetch_passes net n urls retries attempts last =
  (flat_map (pass_schedule urls retries) attempts,
   inr (match attempts with
        | [] => last
        | _ => Some (pass_last net (n + (length attempts - 1) * length urls)%nat urls None)
        end)).
Proof.
  induction attempts as [|a rest IH]; intros n last; [reflexivity|].
  cbn [fetch_passes flat_map]. rewrite fetch_pass_no200, IH.
  unfold pass_schedule. rewrite <- app_assoc. f_equal. f_equal.
  destruct rest as [|a' rest'].
  - simpl. rewrite Nat.add_0_r. reflexivity.
  - f_equal. f_equal. simpl length. lia.
Qed.

End NoOk.

Lemma fetch_passes_nil (net : nat -> string -> Outcome) (retries : Z) :
  forall attempts n last,
  fetch_passes net n [] retries attempts last =
  (flat_map (pass_schedule [] retries) attempts,
   inr (match attempts with [] => last | _ => Some None end)).
Proof.
  induction attempts as [|a rest IH]; intros n last; [reflexivity|].
  cbn [fetch_passes fetch_pass flat_map]. rewrite IH.
  destruct rest; reflexivity.
Qed.

Lemma py_range_length (n : Z) : length (py_range n) = Z.to_nat n.
Proof. unfold py_range. rewrite length_map, length_seq. reflexivity. Qed.

Lemma full_schedule_nil (retries : Z) :
  (0 <= retries)%Z ->
  full_schedule [] retries = map (fun a => Sleep (12 * (a + 1))%Z) (py_range retries).
Proof.
  intros Hr. unfold full_schedule, pass_schedule, py_range.
  replace (Z.to_nat (retries + 1)) with (S (Z.to_nat retries)) by lia.
  rewrite seq_S, !map_app, flat_map_app. simpl.
  replace (Z.of_nat (Z.to_nat retries) <? retries)%Z with false by (symmetry; apply Z.ltb_ge; lia).
  rewrite !app_nil_r. rewrite flat_map_concat_map, map_map.
  assert (Hb : forall l, (forall x, In x l -> (x < Z.to_nat retries)%nat) ->
    concat (map (fun x => if (Z.of_nat x <? retries)%Z then [Sleep (12 * (Z.of_nat x + 1))%Z] else []) l)
    = map (fun x => Sleep (12 * (Z.of_nat x + 1))%Z) l).
  { induction l as [|x l IHl]; intros Hl; [reflexivity|]. simpl.
    replace (Z.of_nat x <? retries)%Z with true by (symmetry; apply Z.ltb_lt; specialize (Hl x (or_introl eq_refl)); lia).
    simpl. f_equal. apply IHl. intros y Hy. apply Hl. now right. }
  rewrite Hb; [now rewrite map_map|]. intros x Hx. apply in_seq in Hx. lia.
Qed.

End FetchFailFacts.

(** When no request of the call gets an HTTP 200 and the candidate list is
    not empty, [fetch_first_ok] (with [retries >= 0]) requests every
    candidate in order in each of the [retries + 1] passes, sleeps
    [1.2 * (a + 1)] seconds after every pass [a] but the last, returns
    [None], and logs exactly one error: the one of the very last request,
    made to the last candidate ([last_err] is reset at every pass). *)
Theorem fetch_first_ok_all_fail_logs_last (net : nat -> string -> Pipeline.Outcome)
    (urls : list string) (retries : Z) :
  (0 <= retries)%Z -> FetchFailFacts.no_200 net -> urls <> [] ->
  let u := List.last urls ""%string in
  let k := (Z.to_nat retries * length urls + length urls - 1)%nat in
  Pipeline.fetch_first_ok net urls retries =
  PyOk ((FetchFacts.full_schedule urls retries ++ [Pipeline.LogErr (FetchFailFacts.err_of (net k u) u)])%list,
        None).
Proof.
  intros Hr Hno Hne u k. unfold Pipeline.fetch_first_ok.
  rewrite (FetchFailFacts.fetch_passes_no200 net Hno).
  destruct (Pipeline.py_range (retries + 1)) as [|a rest] eqn:E.
  - apply (f_equal (@length Z)) in E. rewrite FetchFailFacts.py_range_length in E. simpl in E. lia.
  - rewrite FetchFailFacts.pass_last_nonempty by exact Hne.
    rewrite <- E. unfold FetchFacts.full_schedule.
    replace (0 + (length (Pipeline.py_range (retries + 1)) - 1) * length urls + length urls - 1)%nat
      with k; [reflexivity|].
    rewrite FetchFailFacts.py_range_length. unfold k.
    replace (Z.to_nat (retries + 1)) with (S (Z.to_nat retries)) by lia. lia.
Qed.

Lemma fetch_first_ok_all_fail_logs_last_witness :
  (0 <= 1)%Z /\ FetchFailFacts.no_200 (fun n _ => Pipeline.Resp (Pipeline.mkResponse (500 + Z.of_nat n) ""))
  /\ ["https://a.example/"; "https://b.example/"]%string <> [] /\
  Pipeline.fetch_first_ok (fun n _ => Pipeline.Resp (Pipeline.mkResponse (500 + Z.of_nat n) ""))
    ["https://a.example/"; "https://b.example/"]%string 1 =
  PyOk ((FetchFacts.full_schedule ["https://a.example/"; "https://b.example/"]%string 1 ++
         [Pipeline.LogErr (FetchFailFacts.err_of
            (Pipeline.Resp (Pipeline.mkResponse (500 + Z.of_nat 3) "")) "https://b.example/"%string)])%list,
        None).
Proof.
  assert (Hno : FetchFailFacts.no_200 (fun n _ => Pipeline.Resp (Pipeline.mkResponse (500 + Z.of_nat n) ""))).
  { intros n u r E. assert (Hs : Pipeline.status_code r = (500 + Z.of_nat n)%Z) by (injection E as <-; reflexivity). lia. }
  split; [lia|]. split; [exact Hno|]. split; [discriminate|].
  exact (fetch_first_ok_all_fail_logs_last _ ["https://a.example/"; "https://b.example/"]%string 1
           ltac:(lia) Hno ltac:(discriminate)).
Defined.

(** With an empty candidate list and [retries >= 0], [fetch_first_ok]
    makes no request and logs nothing, but still sleeps
    [1.2 * (a + 1)] seconds for every [a < retries], then returns [None]. *)
Theorem fetch_first_ok_no_candidates (net : nat -> string -> Pipeline.Outcome) (retries : Z) :
  (0 <= retries)%Z ->
  Pipeline.fetch_first_ok net [] retries =
  PyOk (map (fun a => Pipeline.Sleep (12 * (a + 1))%Z) (Pipeline.py_range retries), None).
Proof.
  intros Hr. unfold Pipeline.fetch_first_ok.
  rewrite FetchFailFacts.fetch_passes_nil.
  destruct (Pipeline.py_range (retries + 1)) as [|a rest] eqn:E.
  - apply (f_equal (@length Z)) in E. rewrite FetchFailFacts.py_range_length in E. simpl in E. lia.
  - rewrite <- E. change (flat_map (FetchFacts.pass_schedule [] retries) (Pipeline.py_range (retries + 1)))
      with (FetchFacts.full_schedule [] retries).
    rewrite FetchFailFacts.full_schedule_nil by exact Hr. reflexivity.
Qed.

Lemma fetch_first_ok_no_candidates_witness :
  (0 <= 2)%Z /\
  Pipeline.fetch_first_ok (fun _ u => Pipeline.Resp (Pipeline.mkResponse 200 u)) [] 2 =
  PyOk ([Pipeline.Sleep 12; Pipeline.Sleep 24], None).
Proof.
  split; [lia|].
  exact (fetch_first_ok_no_candidates (fun _ u => Pipeline.Resp (Pipeline.mkResponse 200 u)) 2 ltac:(lia)).
Defined.

(* ------------------------------------------------------------------ *)
(** ** The HTML collector *)

Module HtmlFacts.

Import Pipeline.

Lemma substring_0_length (m : nat) (s : string) :
  String.length (substring 0 m s) = Nat.min m (String.length s).
Proof.
  revert s. induction m as [|m IH]; intros s; [destruct s; reflexivity|].
  destruct s as [|c s]; [reflexivity|]. simpl. rewrite IH. reflexivity.
Qed.

Lemma looks_like_http_nonempty (u : string) : looks_like_http u = true -> u <> ""%string.
Proof. intros H E. subst u. discriminate. Qed.

Section Loop.

Variable urljoin : string -> string -> string.

(** What the loop guarantees of an item it emits from page [page]. *)
Definition good_item (page : string) (d : PItem) : Prop :=
  exists abs t,
    pi_doc_url d = Some abs /\ looks_like_http abs = true /\
    want_link_for_domain abs (domain_of page) = true /\
    pi_ingest_source_type d = (if is_pdf_url abs then "html:pdf-link" else "html")%string /\
    pi_title d = Some t /\ (0 < String.length t <= 500)%nat /\
    pi_raw_meta d = [("from_page"%string, page)].

Lemma html_loop_inv (source : Source) (page : string) (anchors : list Anchor) :
  forall seen docs,
  Forall (good_item page) docs -> NoDup (map pi_doc_url docs) ->
  (forall d, In d docs -> exists abs, pi_doc_url d = Some abs /\ In abs seen) ->
  (length docs < 50)%nat ->
  let out := html_loop urljoin source page (domain_of page) anchors seen docs in
  Forall (good_item page) out /\ NoDup (map pi_doc_url out) /\ (length out <= 50)%nat.
Proof.
  induction anchors as [|a rest IH]; intros seen docs Hg Hnd Hseen Hlen; cbn [html_loop].
  - repeat split; auto. lia.
  - destruct (String.eqb _ "") eqn:E1; [now apply IH|].
    destruct (skipped_href _) eqn:E2; [now apply IH|].
    set (href := py_strip (or_empty (a_href a))) in *.
    set (abs := urljoin page href).
    destruct (looks_like_http abs) eqn:E3; [|now apply IH]. cbn [negb].
    destruct (existsb (String.eqb abs) seen) eqn:E4; [now apply IH|].
    assert (Hseen' : forall d, In d docs -> exists x, pi_doc_url d = Some x /\ In x (abs :: seen)).
    { intros d Hd. destruct (Hseen d Hd) as (x & Hx & Hin). exists x. split; [exact Hx | now right]. }
    destruct (want_link_for_domain abs (domain_of page)) eqn:E5; cbn [negb]; [|now apply IH].
    set (title := if String.eqb (a_text a) "" then abs else a_text a).
    set (item := mkPItem (normalize_country (so_country source)) (so_authority source)
                   (so_source_url source)
                   (if is_pdf_url abs then "html:pdf-link" else "html")%string
                   (Some (substring 0 500 title)) (Some abs) None None [("from_page"%string, page)]).
    assert (Hgi : good_item page item).
    { exists abs, (substring 0 500 title). repeat split; auto.
      - rewrite substring_0_length. unfold title.
        destruct (String.eqb (a_text a) "") eqn:Et.
        + pose proof (looks_like_http_nonempty abs E3).
          destruct abs; [contradiction | simpl; lia].
        + apply String.eqb_neq in Et. destruct (a_text a); [contradiction | simpl; lia].
      - rewrite substring_0_length. lia. }
    assert (Hg' : Forall (good_item page) (docs ++ [item])%list)
      by (apply Forall_app; split; [exact Hg | constructor; [exact Hgi | constructor]]).
    assert (Hnd' : NoDup (map pi_doc_url (docs ++ [item])%list)).
    { rewrite map_app. apply NoDup_app; [exact Hnd | repeat constructor; simpl; tauto |].
      intros x Hx [Hy|[]]. simpl in Hy. subst x.
      apply in_map_iff in Hx as (d & Hd & Hin).
      destruct (Hseen d Hin) as (y & Hy & Hyin). rewrite Hd in Hy. injection Hy as <-.
      assert (existsb (String.eqb abs) seen = true)
        by (apply existsb_exists; exists abs; split; [exact Hyin | apply String.eqb_refl]).
      congruence. }
    destruct (Nat.leb 50 (length (docs ++ [item])%list)) eqn:E6.
    + split; [exact Hg'|]. split; [exact Hnd'|]. rewrite length_app. simpl. lia.
    + apply IH; auto.
      * intros d Hd. apply in_app_or in Hd as [Hd|[<-|[]]]; [now apply Hseen'|].
        exists abs. split; [reflexivity | now left].
      * apply Nat.leb_gt in E6. exact E6.
Qed.

End Loop.

End HtmlFacts.

Module HtmlData.

Import Pipeline.

Local Open Scope string_scope.

Definition hash0 (s : string) : Z := Z.of_nat (String.length s).

Definition net_ok (n : nat) (u : string) : Outcome := Resp (mkResponse 200 u).

(** Joining by concatenation for relative references. *)
Definition join0 (base href : string) : string :=
  if startswith href "http" then href else base ++ href.

Definition anchors0 (r : Response) : option (list Anchor) :=
  Some [mkAnchor (Some " /doc.pdf ") ""; mkAnchor (Some "#top") "Top";
        mkAnchor (Some "/policy") "Policy"; mkAnchor (Some "/doc.pdf") "Again";
        mkAnchor (Some "mailto:a@b.example") "Mail"; mkAnchor None "None";
        mkAnchor (Some "/contact") "Contact"].

Definition source0 : Source :=
  mkSource (Some "UAE") (Some "TDRA") (Some "tdra.gov.ae") None (Some "HTML") false.

Definition result_or_nil (r : py_result (list PItem)) : list PItem :=
  match r with PyOk l => l | PyRaise _ => [] end.

Definition docs0 : list PItem :=
  result_or_nil (collect_html_async join0 anchors0 hash0 net_ok source0).

End HtmlData.

(** Whenever [collect_html_async] returns, it returns at most 50 items with
    pairwise distinct [doc_url]s; all of them come from one fetched page:
    each [doc_url] is an http(s) URL accepted by [want_link_for_domain] for
    that page's domain, typed ["html:pdf-link"] exactly when [is_pdf_url]
    holds (else ["html"]), with a non-empty title of at most 500
    characters and [raw_meta] naming the page. *)
Theorem collect_html_async_items (urljoin : string -> string -> string)
    (page_anchors : Pipeline.Response -> option (list Pipeline.Anchor))
    (hash : string -> Z) (net : nat -> string -> Pipeline.Outcome)
    (source : Pipeline.Source) (docs : list Pipeline.PItem) :
  Pipeline.collect_html_async urljoin page_anchors hash net source = PyOk docs ->
  (length docs <= 50)%nat /\ NoDup (map Pipeline.pi_doc_url docs) /\
  exists page, Forall (HtmlFacts.good_item page) docs.
Proof.
  unfold Pipeline.collect_html_async.
  destruct (Pipeline.candidate_urls hash _) as [[|u us]|]; try discriminate.
  destruct (Pipeline.fetch_first_ok net (u :: us) 2) as [[tr [r|]]|e]; try discriminate.
  - destruct (page_anchors r) as [anchors|].
    + intros H. injection H as <-.
      destruct (HtmlFacts.html_loop_inv urljoin source (Pipeline.resp_url r) anchors [] []
                  (Forall_nil _) (NoDup_nil _) ltac:(intros d [])  ltac:(simpl; lia))
        as (Hg & Hnd & Hl).
      split; [exact Hl|]. split; [exact Hnd|]. eexists. exact Hg.
    + intros H. injection H as <-. split; [simpl; lia|]. split; [constructor|].
      exists ""%string. constructor.
  - intros H. injection H as <-. split; [simpl; lia|]. split; [constructor|].
    exists ""%string. constructor.
Qed.

Lemma collect_html_async_items_witness :
  Pipeline.collect_html_async HtmlData.join0 HtmlData.anchors0 HtmlData.hash0 HtmlData.net_ok
    HtmlData.source0 = PyOk HtmlData.docs0 /\
  (length HtmlData.docs0 <= 50)%nat /\ NoDup (map Pipeline.pi_doc_url HtmlData.docs0) /\
  exists page, Forall (HtmlFacts.good_item page) HtmlData.docs0.
Proof.
  assert (H : Pipeline.collect_html_async HtmlData.join0 HtmlData.anchors0 HtmlData.hash0
                HtmlData.net_ok HtmlData.source0 = PyOk HtmlData.docs0) by (vm_compute; reflexivity).
  split; [exact H|].
  exact (collect_html_async_items _ _ _ _ _ _ H).
Defined.

(* ------------------------------------------------------------------ *)
(** ** [parse_overrides] *)

Module OverrideFacts.

Import Alerts.

Local Open Scope string_scope.

Lemma split_on_nonempty (c : ascii) (s : string) : split_on c s <> [].
Proof.
  induction s as [|d s IH]; simpl; [discriminate|].
  destruct (Ascii.eqb d c); [discriminate|]. destruct (split_on c s); discriminate.
Qed.

Lemma split_on_app (c : ascii) (a b : string) :
  split_on c (a ++ String c b) = (split_on c a ++ split_on c b)%list.
Proof.
  induction a as [|d a IH]; simpl.
  - rewrite Ascii.eqb_refl. reflexivity.
  - destruct (Ascii.eqb d c); [now rewrite IH|].
    rewrite IH. pose proof (split_on_nonempty c a) as Hne.
    destruct (split_on c a); [contradiction | reflexivity].
Qed.

Lemma override_entries_app (a b : string) :
  override_entries (a ++ "," ++ b) = (override_entries a ++ override_entries b)%list.
Proof.
  unfold override_entries. change ("," ++ b) with (String "," b).
  rewrite split_on_app, map_app, filter_app. reflexivity.
Qed.

Lemma parse_fold (s : string) :
  parse_overrides (Some s) = fold_left override_step (override_entries s) [].
Proof.
  unfold parse_overrides. destruct (String.eqb s "") eqn:E; [|reflexivity].
  apply String.eqb_eq in E. subst s. reflexivity.
Qed.

Fixpoint dict_lookup (d : list (string * Z)) (k : string) : option Z :=
  match d with
  | [] => None
  | (k', v) :: d' => if String.eqb k' k then Some v else dict_lookup d' k
  end.

Lemma dict_get_lookup (d : list (string * Z)) (k : string) (dflt : Z) :
  dict_get d k dflt = match dict_lookup d k with Some v => v | None => dflt end.
Proof.
  induction d as [|[k' v] d IH]; simpl; [reflexivity|].
  destruct (String.eqb k' k); [reflexivity | exact IH].
Qed.

Lemma lookup_set (d : list (string * Z)) (k k' : string) (v : Z) :
  dict_lookup (dict_set d k v) k' = if String.eqb k k' then Some v else dict_lookup d k'.
Proof.
  induction d as [|[k0 v0] d IH]; simpl.
  - destruct (String.eqb k k'); reflexivity.
  - destruct (String.eqb k0 k) eqn:E0; simpl.
    + apply String.eqb_eq in E0. subst k0. destruct (String.eqb k k'); reflexivity.
    + rewrite IH. destruct (String.eqb k0 k') eqn:E1; [|reflexivity].
      apply String.eqb_eq in E1. subst k0. rewrite String.eqb_sym, E0. reflexivity.
Qed.

Lemma lookup_step (d : list (string * Z)) (p k : string) :
  dict_lookup (override_step d p) k =
  match dict_lookup (override_step [] p) k with Some v => Some v | None => dict_lookup d k end.
Proof.
  unfold override_step. destruct (negb (has_char "=" p)); [reflexivity|].
  destruct (split_once "=" p) as [a b].
  destruct (py_int (py_strip b)) as [n|]; [|reflexivity].
  rewrite !lookup_set. simpl. destruct (String.eqb (py_strip a) k); reflexivity.
Qed.

Lemma lookup_fold (ps : list string) :
  forall d k, dict_lookup (fold_left override_step ps d) k =
  match dict_lookup (fold_left override_step ps []) k with
  | Some v => Some v
  | None => dict_lookup d k
  end.
Proof.
  induction ps as [|p ps IH]; intros d k; simpl; [reflexivity|].
  rewrite (IH (override_step d p)), (IH (override_step [] p)), lookup_step.
  destruct (dict_lookup (fold_left override_step ps []) k); reflexivity.
Qed.

End OverrideFacts.

(** [parse_overrides] of two specifications joined by a comma maps every
    authority to its value in the second if it has one there, else to its
    value in the first: later entries override earlier ones, and an entry
    that is not [key=int] changes nothing. *)
Theorem parse_overrides_concat (s1 s2 k : string) (dflt : Z) :
  Alerts.dict_get (Alerts.parse_overrides (Some (s1 ++ "," ++ s2)%string)) k dflt =
  Alerts.dict_get (Alerts.parse_overrides (Some s2)) k
    (Alerts.dict_get (Alerts.parse_overrides (Some s1)) k dflt).
Proof.
  rewrite !OverrideFacts.parse_fold, OverrideFacts.override_entries_app, fold_left_app.
  rewrite !OverrideFacts.dict_get_lookup, OverrideFacts.lookup_fold.
  destruct (OverrideFacts.dict_lookup (fold_left Alerts.override_step (Alerts.override_entries s2) []) k);
    reflexivity.
Qed.

(* ------------------------------------------------------------------ *)
(** ** Rendering overrides and reading them back *)

Module OverrideRender.

Import Alerts.

Local Open Scope string_scope.

Definition digit_char (d : nat) : ascii := ascii_of_nat (48 + d).

(** Decimal digits of [n] in front of [acc]. *)
Fixpoint dec_aux (fuel : nat) (n : N) (acc : string) : string :=
  match fuel with
  | O => acc
  | S f =>
      let acc' := String (digit_char (N.to_nat (n mod 10))) acc in
      if (n <? 10)%N then acc' else dec_aux f (n / 10)%N acc'
  end.

Definition n_dec (n : N) : string := dec_aux (S (N.to_nat (N.size n))) n "".

(** [str(v)] for an [int]. *)
Definition z_dec (v : Z) : string :=
  if (v <? 0)%Z then "-" ++ n_dec (Z.to_N (- v)) else n_dec (Z.to_N v).

(** The overrides as [main] lists them in its report:
    [", ".join([f"{k}={v}" for k, v in overrides.items()])]. *)
Definition render_overrides (l : list (string * Z)) : string :=
  String.concat ", " (map (fun kv => fst kv ++ "=" ++ z_dec (snd kv)) l).

(** The value of a digit string read after [acc]. *)
Fixpoint dval (s : string) (acc : Z) : Z :=
  match s with
  | EmptyString => acc
  | String c s' => dval s' (acc * 10 + digit_val c)
  end.

Lemma digit_char_ok (d : nat) : (d < 10)%nat ->
  is_digit (digit_char d) = true /\ digit_val (digit_char d) = Z.of_nat d.
Proof.
  intros Hd. unfold is_digit, digit_val, digit_char.
  rewrite nat_ascii_embedding by lia.
  split; [apply andb_true_iff; split; apply Nat.leb_le; lia | f_equal; lia].
Qed.

Lemma mod10_lt (n : N) : (N.to_nat (n mod 10) < 10)%nat.
Proof. pose proof (N.mod_lt n 10 ltac:(discriminate)). lia. Qed.

Lemma dec_aux_val (f : nat) : forall n acc,
  (n < 10 ^ N.of_nat f)%N -> dval (dec_aux f n acc) 0 = dval acc (Z.of_N n).
Proof.
  induction f as [|f IH]; intros n acc Hn; simpl.
  - simpl in Hn. replace n with 0%N by lia. reflexivity.
  - destruct (digit_char_ok _ (mod10_lt n)) as [_ Hv].
    pose proof (N.div_mod n 10 ltac:(discriminate)) as Hdm.
    pose proof (N.mod_lt n 10 ltac:(discriminate)) as Hml.
    destruct (n <? 10)%N eqn:E.
    + simpl. rewrite Hv. f_equal. apply N.ltb_lt in E.
      rewrite N.mod_small by exact E. lia.
    + rewrite IH.
      * simpl. rewrite Hv. f_equal. lia.
      * apply N.ltb_ge in E. apply N.Div0.div_lt_upper_bound.
        rewrite Nat2N.inj_succ, N.pow_succ_r' in Hn. lia.
Qed.

Lemma dec_aux_digits (f : nat) : forall n acc,
  forallb is_digit (list_ascii_of_string acc) = true ->
  forallb is_digit (list_ascii_of_string (dec_aux f n acc)) = true.
Proof.
  induction f as [|f IH]; intros n acc Ha; cbn [dec_aux]; [exact Ha|].
  destruct (digit_char_ok _ (mod10_lt n)) as [Hd _].
  destruct (n <? 10)%N; [|apply IH]; cbn [list_ascii_of_string forallb]; rewrite Hd, Ha; reflexivity.
Qed.

Lemma dec_aux_length (f : nat) : forall n acc k,
  (1 <= k)%nat -> (n < 10 ^ N.of_nat k)%N ->
  (String.length (dec_aux f n acc) <= k + String.length acc)%nat.
Proof.
  induction f as [|f IH]; intros n acc k Hk Hn; cbn [dec_aux]; [lia|].
  destruct (n <? 10)%N eqn:E; [cbn [String.length]; lia|].
  apply N.ltb_ge in E.
  destruct k as [|[|k]]; [lia| |].
  - simpl in Hn. lia.
  - specialize (IH (n / 10)%N (String (digit_char (N.to_nat (n mod 10))) acc) (S k)).
    simpl String.length in IH. enough (n / 10 < 10 ^ N.of_nat (S k))%N by (specialize (IH ltac:(lia) H); lia).
    apply N.Div0.div_lt_upper_bound. rewrite (Nat2N.inj_succ (S k)), N.pow_succ_r' in Hn. lia.
Qed.

Lemma dec_aux_shape (f : nat) : forall n acc,
  exists c s, dec_aux (S f) n acc = String c s /\ is_digit c = true.
Proof.
  induction f as [|f IH]; intros n acc.
  - cbn [dec_aux]. destruct (digit_char_ok _ (mod10_lt n)) as [Hd _].
    destruct (n <? 10)%N; eexists _, _; split; [reflexivity | exact Hd | reflexivity | exact Hd].
  - change (dec_aux (S (S f)) n acc) with
      (let acc' := String (digit_char (N.to_nat (n mod 10))) acc in
       if (n <? 10)%N then acc' else dec_aux (S f) (n / 10)%N acc').
    destruct (digit_char_ok _ (mod10_lt n)) as [Hd _].
    cbv zeta. destruct (n <? 10)%N; [eexists _, _; split; [reflexivity | exact Hd] | apply IH].
Qed.

Lemma n_dec_bound (n : N) : (n < 10 ^ N.of_nat (S (N.to_nat (N.size n))))%N.
Proof.
  pose proof (N.size_gt n) as H.
  assert (2 ^ N.size n <= 10 ^ N.size n)%N by (apply N.pow_le_mono_l; lia).
  assert (10 ^ N.size n <= 10 ^ N.of_nat (S (N.to_nat (N.size n))))%N
    by (apply N.pow_le_mono_r; lia).
  lia.
Qed.

Lemma digits_loop_all (s : string) : forall acc nd,
  forallb is_digit (list_ascii_of_string s) = true ->
  digits_loop s acc nd false = Some (dval s acc, (nd + String.length s)%nat).
Proof.
  induction s as [|c s IH]; intros acc nd H; cbn [digits_loop String.length].
  - rewrite Nat.add_0_r. reflexivity.
  - cbn [list_ascii_of_string forallb] in H. apply andb_true_iff in H as [Hc Hs]. rewrite Hc, IH by exact Hs.
    rewrite Nat.add_succ_r. reflexivity.
Qed.

Lemma int_body_n_dec (n : N) :
  (String.length (n_dec n) <= int_max_str_digits)%nat -> int_body (n_dec n) = Some (Z.of_N n).
Proof.
  intros Hl. unfold n_dec in *.
  destruct (dec_aux_shape (N.to_nat (N.size n)) n "") as (c & s & E & Hc).
  pose proof (dec_aux_val _ n "" (n_dec_bound n)) as Hv.
  pose proof (dec_aux_digits (S (N.to_nat (N.size n))) n "" eq_refl) as Hd.
  rewrite E in Hv, Hd, Hl |- *.
  change (forallb is_digit (c :: list_ascii_of_string s) = true) in Hd.
  cbn [forallb] in Hd. rewrite Hc in Hd. cbn [andb] in Hd.
  change (dval (String c s) 0) with (dval s (0 * 10 + digit_val c)) in Hv.
  change (String.length (String c s)) with (S (String.length s)) in Hl.
  unfold int_body. rewrite Hc, digits_loop_all by exact Hd.
  replace (Nat.leb (1 + String.length s) int_max_str_digits) with true
    by (symmetry; apply Nat.leb_le; lia).
  f_equal. change (dval "" (Z.of_N n)) with (Z.of_N n) in Hv. rewrite <- Hv. f_equal.
Qed.

Lemma n_dec_length (n : N) (k : nat) :
  (1 <= k)%nat -> (n < 10 ^ N.of_nat k)%N -> (String.length (n_dec n) <= k)%nat.
Proof. intros Hk Hn. unfold n_dec. pose proof (dec_aux_length (S (N.to_nat (N.size n))) n "" k Hk Hn) as H. cbn [String.length] in H. lia. Qed.

Definition dec_char (c : ascii) : bool := is_digit c || Ascii.eqb c "-".

Definition all_chars (q : ascii -> bool) (s : string) : bool := forallb q (list_ascii_of_string s).

Lemma dec_char_not_space (c : ascii) : dec_char c = true -> is_py_space c = false.
Proof. destruct c as [[] [] [] [] [] [] [] []]; vm_compute; intros H; first [reflexivity | discriminate H]. Qed.

Lemma all_chars_app (q : ascii -> bool) (a b : string) :
  all_chars q (a ++ b) = all_chars q a && all_chars q b.
Proof.
  induction a as [|c a IH]; [reflexivity|]. unfold all_chars in *. simpl. rewrite IH.
  apply andb_assoc.
Qed.

Lemma z_dec_chars (v : Z) : all_chars dec_char (z_dec v) = true.
Proof.
  assert (Hn : forall m, all_chars dec_char (n_dec m) = true).
  { intros m. pose proof (dec_aux_digits (S (N.to_nat (N.size m))) m "" eq_refl) as H.
    unfold all_chars, n_dec. revert H. generalize (list_ascii_of_string (dec_aux (S (N.to_nat (N.size m))) m "")).
    intros l. induction l as [|c l IH]; [reflexivity|]. cbn [forallb].
    intros H. apply andb_true_iff in H as [H1 H2]. rewrite IH by exact H2.
    unfold dec_char at 1. rewrite H1. reflexivity. }
  unfold z_dec. destruct (v <? 0)%Z; [|apply Hn].
  change ("-" ++ n_dec (Z.to_N (- v))) with (String "-" (n_dec (Z.to_N (- v)))).
  unfold all_chars in *. cbn [list_ascii_of_string forallb]. rewrite Hn. reflexivity.
Qed.

Lemma has_char_all (q : ascii -> bool) (c : ascii) (s : string) :
  all_chars q s = true -> q c = false -> has_char c s = false.
Proof.
  induction s as [|d s IH]; intros H Hc; [reflexivity|].
  unfold all_chars in H. cbn [list_ascii_of_string forallb] in H. apply andb_true_iff in H as [Hd Hs].
  simpl. destruct (Ascii.eqb d c) eqn:E; [apply Ascii.eqb_eq in E; subst d; congruence|].
  apply IH; assumption.
Qed.

Lemma rstrip_all (s : string) :
  all_chars (fun c => negb (is_py_space c)) s = true -> rstrip_by is_py_space s = s.
Proof.
  induction s as [|c s IH]; intros H; [reflexivity|].
  unfold all_chars in H. cbn [list_ascii_of_string forallb] in H. apply andb_true_iff in H as [Hc Hs].
  simpl. rewrite IH by exact Hs. apply negb_true_iff in Hc. rewrite Hc, andb_false_r. reflexivity.
Qed.

Lemma nonspace_of_dec (s : string) :
  all_chars dec_char s = true -> all_chars (fun c => negb (is_py_space c)) s = true.
Proof.
  induction s as [|c s IH]; intros H; [reflexivity|].
  unfold all_chars in *. cbn [list_ascii_of_string forallb] in *. apply andb_true_iff in H as [Hc Hs].
  rewrite dec_char_not_space by exact Hc. simpl. now apply IH.
Qed.

Lemma strip_z_dec (v : Z) : py_strip (z_dec v) = z_dec v.
Proof.
  pose proof (nonspace_of_dec _ (z_dec_chars v)) as H.
  unfold py_strip.
  assert (Hl : lstrip_by is_py_space (z_dec v) = z_dec v).
  { destruct (z_dec v) as [|c s]; [reflexivity|].
    unfold all_chars in H. cbn [list_ascii_of_string forallb] in H. apply andb_true_iff in H as [Hc _].
    apply negb_true_iff in Hc. simpl. rewrite Hc. reflexivity. }
  rewrite Hl. apply rstrip_all. exact H.
Qed.

Lemma py_int_z_dec (v : Z) : (Z.abs v < 10 ^ 4300)%Z -> py_int (z_dec v) = Some v.
Proof.
  intros Hv. unfold py_int. rewrite strip_z_dec.
  assert (Hlen : forall m : N, (Z.of_N m < 10 ^ 4300)%Z ->
            (String.length (n_dec m) <= int_max_str_digits)%nat).
  { intros m Hm. apply n_dec_length; [unfold int_max_str_digits; lia|].
    replace (N.of_nat int_max_str_digits) with 4300%N by reflexivity.
    apply N2Z.inj_lt. rewrite N2Z.inj_pow. exact Hm. }
  unfold z_dec. destruct (v <? 0)%Z eqn:E.
  - apply Z.ltb_lt in E.
    change ("-" ++ n_dec (Z.to_N (- v))) with (String "-" (n_dec (Z.to_N (- v)))).
    cbv beta iota. rewrite Ascii.eqb_refl. rewrite int_body_n_dec.
    + simpl. f_equal. rewrite Z2N.id by lia. lia.
    + apply Hlen. rewrite Z2N.id by lia. lia.
  - apply Z.ltb_ge in E.
    assert (Hb : int_body (n_dec (Z.to_N v)) = Some v).
    { rewrite int_body_n_dec; [f_equal; apply Z2N.id; lia|]. apply Hlen. rewrite Z2N.id by lia. lia. }
    unfold n_dec in *.
    destruct (dec_aux_shape (N.to_nat (N.size (Z.to_N v))) (Z.to_N v) "") as (c & s & Es & Hc).
    rewrite Es in Hb |- *.
    replace (Ascii.eqb c "-") with false
      by (symmetry; apply Ascii.eqb_neq; intros ->; discriminate Hc).
    replace (Ascii.eqb c "+") with false
      by (symmetry; apply Ascii.eqb_neq; intros ->; discriminate Hc).
    exact Hb.
Qed.

Lemma split_on_no_char (c : ascii) (s : string) : has_char c s = false -> split_on c s = [s].
Proof.
  induction s as [|d s IH]; intros H; [reflexivity|].
  simpl in H. apply orb_false_iff in H as [Hd Hs]. simpl. rewrite Hd, IH by exact Hs. reflexivity.
Qed.

Lemma strip_space (h : string) : py_strip (String " " h) = py_strip h.
Proof. reflexivity. Qed.

Lemma split_on_space (s : string) :
  map py_strip (split_on "," (String " " s)) = map py_strip (split_on "," s).
Proof.
  change (split_on "," (String " " s))
    with (match split_on "," s with h :: t => String " " h :: t | [] => [String " " ""] end).
  pose proof (OverrideFacts.split_on_nonempty "," s) as Hne.
  destruct (split_on "," s) as [|h t]; [contradiction|].
  cbn [map]. rewrite strip_space. reflexivity.
Qed.

Lemma split_on_concat (parts : list string) :
  parts <> [] -> Forall (fun p => has_char "," p = false) parts ->
  map py_strip (split_on "," (String.concat ", " parts)) = map py_strip parts.
Proof.
  induction parts as [|x [|y t] IH]; intros Hne Hf; [contradiction| |].
  - inversion Hf; subst. simpl. now rewrite split_on_no_char.
  - inversion Hf as [|? ? Hx Ht]; subst.
    change (String.concat ", " (x :: y :: t))
      with (x ++ String "," (String " " (String.concat ", " (y :: t)))).
    rewrite OverrideFacts.split_on_app, split_on_no_char by exact Hx.
    rewrite map_app, split_on_space, IH by (discriminate || exact Ht). reflexivity.
Qed.

Lemma has_char_app (c : ascii) (a b : string) : has_char c (a ++ b) = has_char c a || has_char c b.
Proof. induction a as [|d a IH]; [reflexivity|]. simpl. rewrite IH. apply orb_assoc. Qed.

Lemma split_once_app (k d : string) :
  has_char "=" k = false -> split_once "=" (k ++ "=" ++ d) = (k, d).
Proof.
  induction k as [|c k IH]; intros H; [reflexivity|].
  simpl in H. apply orb_false_iff in H as [Hc Hk].
  change (String c k ++ "=" ++ d) with (String c (k ++ "=" ++ d)).
  cbn [split_once]. rewrite Hc, IH by exact Hk. reflexivity.
Qed.

Lemma lstrip_length (p : ascii -> bool) (s : string) :
  (String.length (lstrip_by p s) <= String.length s)%nat.
Proof. induction s as [|c s IH]; simpl; [lia|]. destruct (p c); simpl; lia. Qed.

Lemma rstrip_length (p : ascii -> bool) (s : string) :
  (String.length (rstrip_by p s) <= String.length s)%nat.
Proof.
  induction s as [|c s IH]; simpl; [lia|].
  destruct (String.eqb (rstrip_by p s) "" && p c); simpl; lia.
Qed.

Lemma strip_entry (k b : string) :
  py_strip k = k -> b <> "" -> all_chars (fun c => negb (is_py_space c)) b = true ->
  py_strip (k ++ b) = k ++ b.
Proof.
  intros Hk Hb Hsp. unfold py_strip.
  assert (Hl : lstrip_by is_py_space (k ++ b) = k ++ b).
  { destruct k as [|c k'].
    - destruct b as [|c b']; [contradiction|].
      unfold all_chars in Hsp. cbn [list_ascii_of_string forallb] in Hsp.
      apply andb_true_iff in Hsp as [Hc _]. apply negb_true_iff in Hc. simpl. now rewrite Hc.
    - simpl. destruct (is_py_space c) eqn:Ec; [|reflexivity].
      exfalso. unfold py_strip in Hk. simpl in Hk. rewrite Ec in Hk.
      pose proof (rstrip_length is_py_space (lstrip_by is_py_space k')) as H1.
      pose proof (lstrip_length is_py_space k') as H2.
      rewrite Hk in H1. simpl in H1. lia. }
  rewrite Hl, StrFacts.rstrip_by_app, rstrip_all by exact Hsp.
  destruct (String.eqb b "") eqn:E; [apply String.eqb_eq in E; contradiction | reflexivity].
Qed.

(** Conditions on an entry that [render_overrides] writes unambiguously. *)
Definition entry_ok (kv : string * Z) : Prop :=
  py_strip (fst kv) = fst kv /\ has_char "," (fst kv) = false /\
  has_char "=" (fst kv) = false /\ (Z.abs (snd kv) < 10 ^ 4300)%Z.

Definition entry (kv : string * Z) : string := fst kv ++ "=" ++ z_dec (snd kv).

Lemma entry_facts (kv : string * Z) : entry_ok kv ->
  py_strip (entry kv) = entry kv /\ entry kv <> "" /\ has_char "," (entry kv) = false /\
  forall acc, override_step acc (entry kv) = dict_set acc (fst kv) (snd kv).
Proof.
  destruct kv as [k v]. intros (Hs & Hc & He & Hv). unfold entry; cbn [fst snd] in *.
  assert (Hsp : all_chars (fun c => negb (is_py_space c)) ("=" ++ z_dec v) = true).
  { change ("=" ++ z_dec v) with (String "=" (z_dec v)). unfold all_chars in *.
    cbn [list_ascii_of_string forallb]. exact (nonspace_of_dec _ (z_dec_chars v)). }
  split; [apply strip_entry; [exact Hs | discriminate | exact Hsp]|].
  split; [destruct k; discriminate|].
  split.
  - rewrite has_char_app, Hc. simpl. exact (has_char_all dec_char "," _ (z_dec_chars v) eq_refl).
  - intros acc. unfold override_step.
    replace (has_char "=" (k ++ "=" ++ z_dec v)) with true
      by (symmetry; rewrite has_char_app; apply orb_true_iff; right; reflexivity).
    cbn [negb]. rewrite split_once_app by exact He.
    rewrite strip_z_dec, py_int_z_dec by exact Hv. rewrite Hs. reflexivity.
Qed.

Lemma dict_set_absent (acc : list (string * Z)) (k : string) (v : Z) :
  ~ In k (map fst acc) -> dict_set acc k v = (acc ++ [(k, v)])%list.
Proof.
  induction acc as [|[k' v'] acc IH]; intros H; [reflexivity|].
  simpl. destruct (String.eqb k' k) eqn:E.
  - apply String.eqb_eq in E. subst k'. exfalso. apply H. now left.
  - rewrite IH; [reflexivity|]. intros Hin. apply H. now right.
Qed.

Lemma fold_entries (l : list (string * Z)) : forall acc,
  NoDup (map fst acc ++ map fst l) -> Forall entry_ok l ->
  fold_left override_step (map entry l) acc = (acc ++ l)%list.
Proof.
  induction l as [|kv l IH]; intros acc Hnd Hok; simpl; [now rewrite app_nil_r|].
  inversion Hok as [|? ? Hkv Hl]; subst.
  destruct (entry_facts kv Hkv) as (_ & _ & _ & Hstep). rewrite Hstep.
  rewrite dict_set_absent.
  - destruct kv as [k v]. rewrite IH.
    + rewrite <- app_assoc. reflexivity.
    + rewrite map_app, <- app_assoc. exact Hnd.
    + exact Hl.
  - intros Hin. simpl in Hnd. apply NoDup_remove_2 in Hnd. apply Hnd. apply in_or_app. now left.
Qed.

End OverrideRender.

(** [parse_overrides] reads back what [render_overrides] writes: for
    distinct authority names that are already stripped and contain neither
    [","] nor ["="], with integer thresholds of at most 4300 digits,
    parsing the list ["k1=v1, k2=v2, ..."] that [main] prints gives
    exactly those pairs, in order. *)
Theorem parse_overrides_render (l : list (string * Z)) :
  NoDup (map fst l) -> Forall OverrideRender.entry_ok l ->
  Alerts.parse_overrides (Some (OverrideRender.render_overrides l)) = l.
Proof.
  intros Hnd Hok. destruct l as [|kv l']; [reflexivity|].
  rewrite OverrideFacts.parse_fold. unfold Alerts.override_entries, OverrideRender.render_overrides.
  set (l := kv :: l') in *.
  assert (Hf : Forall (fun kv => PyStr.py_strip (OverrideRender.entry kv) = OverrideRender.entry kv /\
                                 OverrideRender.entry kv <> ""%string /\
                                 Alerts.has_char "," (OverrideRender.entry kv) = false) l).
  { apply Forall_forall. intros x Hx. destruct (OverrideRender.entry_facts x (proj1 (Forall_forall _ _) Hok x Hx))
      as (H1 & H2 & H3 & _). auto. }
  change (map (fun kv0 => (fst kv0 ++ "=" ++ OverrideRender.z_dec (snd kv0))%string) l)
    with (map OverrideRender.entry l).
  rewrite OverrideRender.split_on_concat.
  - replace (filter (fun x => negb (String.eqb x "")) (map py_strip (map OverrideRender.entry l)))
      with (map OverrideRender.entry l).
    + exact (OverrideRender.fold_entries l [] Hnd Hok).
    + clear Hnd Hok. induction Hf as [|x t [Hs [Hne _]] _ IH]; [reflexivity|].
      simpl. rewrite Hs. destruct (String.eqb (OverrideRender.entry x) "") eqn:E;
        [apply String.eqb_eq in E; contradiction|]. simpl. f_equal. exact IH.
  - discriminate.
  - apply Forall_map. eapply Forall_impl; [|exact Hf]. intros x (_ & _ & H). exact H.
Qed.

Lemma parse_overrides_render_witness :
  NoDup (map fst [("PSA", 48%Z); ("Open Data Portal", 96%Z); ("SAMA", (-1)%Z)]%string) /\
  Forall OverrideRender.entry_ok [("PSA", 48%Z); ("Open Data Portal", 96%Z); ("SAMA", (-1)%Z)]%string /\
  Alerts.parse_overrides
    (Some (OverrideRender.render_overrides [("PSA", 48%Z); ("Open Data Portal", 96%Z); ("SAMA", (-1)%Z)]%string))
  = [("PSA", 48%Z); ("Open Data Portal", 96%Z); ("SAMA", (-1)%Z)]%string.
Proof.
  assert (Hnd : NoDup (map fst [("PSA", 48%Z); ("Open Data Portal", 96%Z); ("SAMA", (-1)%Z)]%string)).
  { simpl. repeat constructor; simpl; intuition discriminate. }
  assert (Hok : Forall OverrideRender.entry_ok [("PSA", 48%Z); ("Open Data Portal", 96%Z); ("SAMA", (-1)%Z)]%string).
  { repeat constructor; vm_compute; reflexivity. }
  split; [exact Hnd|]. split; [exact Hok|].
  exact (parse_overrides_render _ Hnd Hok).
Defined.

(* ================================================================== *)
(** ** Link filter, RSS collector, canonical URLs, batches, run log *)

Module LinkFacts.

Import Pipeline.

Local Open Scope string_scope.

(** Every keyword any branch of [want_link_for_domain] looks for. *)
Definition link_keywords : list string :=
  ["/explore/"; "/dataset/"; "/download"; "/api/"; "policy"; "policies"; "strategy";
   "strategies"; "data"; "ai"; "cyber"; "security"; "privacy"; "report"; "document"].

Lemma any_in_incl (ks ks' : list string) (u : string) :
  incl ks ks' -> any_in ks u = true -> any_in ks' u = true.
Proof.
  unfold any_in. rewrite !existsb_exists. intros Hi (k & Hk & H). exists k. auto.
Qed.

Lemma any_in_keywords (ks : list string) (u : string) :
  incl ks link_keywords -> any_in ks u = true -> any_in link_keywords u = true.
Proof. apply any_in_incl. Qed.

End LinkFacts.

Module RssFacts.

Import Pipeline.

Lemma length_firstn_min (A : Type) (n : nat) (l : list A) :
  length (firstn n l) = Nat.min n (length l).
Proof. apply length_firstn. Qed.

End RssFacts.

Module UrlFacts.

Import StrFacts.

Local Open Scope string_scope.

Lemma rstrip_last (p : ascii -> bool) (s : string) :
  rstrip_by p s = "" \/ exists r c, rstrip_by p s = r ++ String c "" /\ p c = false.
Proof.
  induction s as [|c s IH]; [now left|]. simpl.
  destruct IH as [E|(r & c' & E & Hc')].
  - rewrite E. simpl. destruct (p c) eqn:Pc; [now left|]. right. exists "", c. auto.
  - rewrite E. replace (String.eqb (r ++ String c' "") "") with false
      by (destruct r; reflexivity).
    simpl. right. exists (String c r), c'. auto.
Qed.

Lemma substring_app_len (r s : string) (m : nat) :
  substring (String.length r) m (r ++ s) = substring 0 m s.
Proof. induction r as [|c r IH]; [reflexivity|]. exact IH. Qed.

Lemma length_app (a b : string) : String.length (a ++ b) = (String.length a + String.length b)%nat.
Proof. induction a as [|c a IH]; simpl; congruence. Qed.

Lemma endswith_last (r : string) (c : ascii) :
  c <> "/"%char -> endswith (r ++ String c "") "/" = false.
Proof.
  intros Hc. unfold endswith. rewrite length_app. cbn [String.length].
  replace (String.length r + 1 - 1)%nat with (String.length r) by lia.
  rewrite substring_app_len. cbn [substring].
  apply andb_false_iff. right. apply String.eqb_neq. intros E. injection E as E. contradiction.
Qed.

End UrlFacts.

Module BatchFacts.

Import RunSave SaveFacts.

Local Open Scope string_scope.

(** The items [save_items] turns into rows. *)
Definition keeps (it : IngestItem) : bool :=
  negb (String.eqb (normalize_url (or_default (it_doc_url it) "")) "").

Lemma make_rows_length (items : list IngestItem) :
  length (make_rows items) = length (filter keeps items).
Proof.
  induction items as [|it its IH]; [reflexivity|]. simpl.
  unfold keeps at 1. unfold make_row.
  destruct (String.eqb (normalize_url (or_default (it_doc_url it) "")) ""); simpl; congruence.
Qed.

Lemma has_dup_false (l : list string) : has_dup l = false <-> NoDup l.
Proof.
  induction l as [|x l IH]; simpl; [split; [constructor | reflexivity]|].
  rewrite orb_false_iff, IH. split.
  - intros [H1 H2]. constructor; [|exact H2]. intros Hin.
    assert (existsb (String.eqb x) l = true) by (apply existsb_exists; exists x; split; [exact Hin | apply String.eqb_refl]).
    congruence.
  - intros Hnd. inversion Hnd as [|? ? Hn Hnd']; subst. split; [|exact Hnd'].
    apply not_true_is_false. intros E. apply existsb_exists in E as (y & Hy & Ey).
    apply String.eqb_eq in Ey. subst y. contradiction.
Qed.

Lemma upsert_one_stores (st : Store) (r : Row) :
  exists s, In s (st_rows (upsert_one st r)) /\ s_row s = r.
Proof.
  rewrite upsert_one_unfold. destruct (existsb (same_doc r) (st_rows st)) eqn:E.
  - apply existsb_exists in E as (s & Hin & Hs). exists (upd r s). split; [simpl; now apply in_map|].
    unfold upd. rewrite Hs. reflexivity.
  - eexists. split; [simpl; apply in_or_app; right; now left | reflexivity].
Qed.

Lemma fold_keeps (rows : list Row) : forall (st : Store) (s : StoredRow),
  In s (st_rows st) -> ~ In (sdoc s) (map r_doc_url rows) ->
  In s (st_rows (fold_left upsert_one rows st)).
Proof.
  induction rows as [|r rows IH]; intros st s Hin Hn; [exact Hin|]. simpl.
  apply IH.
  - apply upsert_one_other; [exact Hin|]. intros E. apply Hn. left. auto.
  - intros H. apply Hn. now right.
Qed.

Lemma fold_stores (rows : list Row) : forall (st : Store),
  NoDup (map r_doc_url rows) ->
  forall r, In r rows -> exists s, In s (st_rows (fold_left upsert_one rows st)) /\ s_row s = r.
Proof.
  induction rows as [|r0 rows IH]; intros st Hnd r Hr; [destruct Hr|].
  inversion Hnd as [|? ? Hn Hnd']; subst. simpl.
  destruct Hr as [<-|Hr]; [|now apply IH].
  destruct (upsert_one_stores st r0) as (s & Hs & Er).
  exists s. split; [|exact Er]. apply fold_keeps; [exact Hs|].
  unfold sdoc. rewrite Er. exact Hn.
Qed.

Lemma fold_nodup (rows : list Row) : forall (st : Store),
  NoDup (map sdoc (st_rows st)) -> NoDup (map sdoc (st_rows (fold_left upsert_one rows st))).
Proof.
  induction rows as [|r rows IH]; intros st Hnd; [exact Hnd|]. simpl.
  apply IH. apply upsert_one_nodup. exact Hnd.
Qed.

End BatchFacts.

Module RunLogFacts.

Import Alerts.

(** The writes to [runs_log] and the mail events of [main]. *)
Definition is_run_event (e : MainEvent) : bool :=
  match e with RunInserted _ _ _ _ | RunUpdated _ _ _ _ _ => true | _ => false end.

Definition is_mail_event (e : MainEvent) : bool :=
  match e with MailSent _ _ _ | MailDryRun _ _ _ => true | _ => false end.

(** [main] is [main_with_writes] when every [runs_log] write succeeds. *)
Lemma main_with_writes_ok (env_ok : bool) (args : Args) (run_id : Z) (pending : py_result Z)
    (failed : py_result (list FailedRun)) (silent : py_result (list Alert))
    (mail : py_result unit) (finished_at : string) :
  main_with_writes env_ok args (PyOk run_id) pending failed silent mail (PyOk tt) (PyOk tt) finished_at =
  main env_ok args run_id pending failed silent mail finished_at.
Proof.
  unfold main_with_writes, main. destruct env_ok; [|reflexivity]. cbn [negb].
  destruct pending; [|reflexivity]. destruct failed; [|reflexivity]. destruct silent; [|reflexivity].
  destruct (_ && _); [reflexivity|].
  destruct (arg_dry_run args); [reflexivity|]. destruct mail; reflexivity.
Qed.

End RunLogFacts.

Module SilentFacts.

Import Alerts AlertFacts.

Local Open Scope Z_scope.

Lemma silent_loop_keys (now dflt : Z) (ov : list (string * Z)) (es : list (Key * datetime))
    (alerts : list Alert) :
  NoDup (map fst es) -> silent_loop now dflt ov es = PyOk alerts ->
  NoDup (map alert_key alerts).
Proof.
  revert alerts. induction es as [|[[[c au] su] dt] es IH]; intros alerts Hnd; simpl.
  - intros H. injection H as <-. constructor.
  - inversion Hnd as [|? ? Hn Hnd']; subst.
    destruct (_ || _); [discriminate|].
    destruct dt as [t|t]; [|discriminate].
    destruct (silent_loop now dflt ov es) as [rest|e] eqn:Es; [|discriminate].
    pose proof (IH rest Hnd' eq_refl) as Hr.
    destruct (t <? _); intros H; injection H as <-; [|exact Hr].
    simpl. constructor; [|exact Hr].
    intros Hin. apply in_map_iff in Hin as (a & Ek & Ha).
    destruct (silent_loop_sound now dflt ov es rest a Es Ha) as (Hin' & _).
    assert (Ek' : alert_key a = (c, au, su)) by (rewrite Ek; reflexivity).
    apply Hn. rewrite <- Ek'. change (alert_key a) with (fst (alert_key a, a_last_item_at a)).
    now apply in_map.
Qed.

Lemma silent_loop_elapsed (now dflt : Z) (ov : list (string * Z)) (es : list (Key * datetime))
    (alerts : list Alert) (a : Alert) :
  silent_loop now dflt ov es = PyOk alerts -> In a alerts ->
  exists t, a_last_item_at a = Aware t /\ a_elapsed_us a = now - t.
Proof.
  revert alerts. induction es as [|[[[c au] su] dt] es IH]; intros alerts; simpl.
  - intros H. injection H as <-. intros [].
  - destruct (_ || _); [discriminate|].
    destruct dt as [t|t]; [|discriminate].
    destruct (silent_loop now dflt ov es) as [rest|e]; [|discriminate].
    destruct (t <? _); intros H; injection H as <-; [intros [<-|Hin]|intros Hin].
    + exists t. auto.
    + exact (IH rest eq_refl Hin).
    + exact (IH rest eq_refl Hin).
Qed.

End SilentFacts.

(* ------------------------------------------------------------------ *)

(** A link whose path ends in [.pdf] (in any case) is kept on every page,
    whatever its domain. *)
Theorem want_link_for_domain_pdf (abs_url page_domain : string) :
  Pipeline.is_pdf_url abs_url = true -> Pipeline.want_link_for_domain abs_url page_domain = true.
Proof.
  intros H. unfold Pipeline.want_link_for_domain. rewrite H.
  destruct (py_in "data.gov.qa" page_domain); [reflexivity|].
  destruct (py_in "hukoomi.gov.qa" page_domain); reflexivity.
Qed.

Lemma want_link_for_domain_pdf_witness :
  Pipeline.is_pdf_url "https://x.example/a/Report.PDF"%string = true /\
  Pipeline.want_link_for_domain "https://x.example/a/Report.PDF"%string "www.data.gov.qa"%string = true.
Proof.
  assert (H : Pipeline.is_pdf_url "https://x.example/a/Report.PDF"%string = true) by (vm_compute; reflexivity).
  split; [exact H|]. exact (want_link_for_domain_pdf _ _ H).
Defined.

(** [want_link_for_domain] keeps a link that is not a PDF only when its
    lower-cased URL contains one of the fixed keywords of its three
    branches. *)
Theorem want_link_for_domain_keywords (abs_url page_domain : string) :
  Pipeline.want_link_for_domain abs_url page_domain = true ->
  Pipeline.is_pdf_url abs_url = true \/
  Pipeline.any_in LinkFacts.link_keywords (py_lower abs_url) = true.
Proof.
  intros W. unfold Pipeline.want_link_for_domain in W.
  destruct (Pipeline.is_pdf_url abs_url) eqn:P; [now left|]. right.
  destruct (py_in "data.gov.qa" page_domain).
  - destruct (Pipeline.any_in _ _) eqn:A; [|destruct (_ && _); discriminate W].
    refine (LinkFacts.any_in_keywords _ _ _ A).
    intros x Hx. simpl in Hx. unfold LinkFacts.link_keywords. simpl. tauto.
  - destruct (py_in "hukoomi.gov.qa" page_domain).
    + destruct (Pipeline.any_in _ _) eqn:A; [|discriminate W].
      refine (LinkFacts.any_in_keywords _ _ _ A).
      intros x Hx. simpl in Hx. unfold LinkFacts.link_keywords. simpl. tauto.
    + refine (LinkFacts.any_in_keywords _ _ _ W).
      intros x Hx. simpl in Hx. unfold LinkFacts.link_keywords. simpl. tauto.
Qed.

Lemma want_link_for_domain_keywords_witness :
  Pipeline.want_link_for_domain "https://tdra.gov.ae/en/AI-Policy"%string "tdra.gov.ae"%string = true /\
  (Pipeline.is_pdf_url "https://tdra.gov.ae/en/AI-Policy"%string = true \/
   Pipeline.any_in LinkFacts.link_keywords (py_lower "https://tdra.gov.ae/en/AI-Policy"%string) = true).
Proof.
  assert (H : Pipeline.want_link_for_domain "https://tdra.gov.ae/en/AI-Policy"%string "tdra.gov.ae"%string = true)
    by (vm_compute; reflexivity).
  split; [exact H|]. exact (want_link_for_domain_keywords _ _ H).
Defined.

(** [collect_rss] reads nothing unless the stripped [rss_url] looks like
    http(s); otherwise it returns one item per feed entry, at most the
    first 50, each typed ["rss"], tagged with that [rss_url], and dated by
    [published] or, when that is missing or empty, [updated]. *)
Theorem collect_rss_items (feed_entries : string -> list Pipeline.Entry) (source : Pipeline.Source) :
  let url := py_strip (Pipeline.or_empty (Pipeline.so_rss_url source)) in
  length (Pipeline.collect_rss feed_entries source) =
    (if Pipeline.looks_like_http url then Nat.min 50 (length (feed_entries url)) else 0%nat) /\
  map Pipeline.pi_doc_url (Pipeline.collect_rss feed_entries source) =
    (if Pipeline.looks_like_http url then map Pipeline.e_link (firstn 50 (feed_entries url)) else []) /\
  Forall (fun it => Pipeline.pi_ingest_source_type it = "rss"%string /\
                    Pipeline.pi_raw_meta it = [("rss_url"%string, url)] /\
                    Pipeline.looks_like_http url = true)
         (Pipeline.collect_rss feed_entries source).
Proof.
  cbv zeta. unfold Pipeline.collect_rss.
  destruct (Pipeline.looks_like_http (py_strip (Pipeline.or_empty (Pipeline.so_rss_url source)))) eqn:H;
    cbn [negb].
  - split; [rewrite length_map; apply RssFacts.length_firstn_min|].
    split; [rewrite map_map; reflexivity|].
    apply Forall_map. apply Forall_forall. intros e _. simpl. auto.
  - split; [reflexivity|]. split; [reflexivity|]. constructor.
Qed.

(** [normalize_url] never returns a URL ending in ["/"]. *)
Theorem normalize_url_no_trailing_slash (u : string) :
  endswith (RunSave.normalize_url u) "/" = false.
Proof.
  unfold RunSave.normalize_url.
  destruct (String.eqb u "") eqn:E; [apply String.eqb_eq in E; subst u; reflexivity|].
  destruct (UrlFacts.rstrip_last is_slash (RunSave.www_re_sub (py_strip u))) as [R|(r & c & R & Hc)];
    rewrite R; [reflexivity|].
  apply UrlFacts.endswith_last. intros ->. discriminate Hc.
Qed.

(** When two items of one batch have the same non-empty canonical
    [doc_url], [save_items] raises [APIError] and writes nothing. *)
Theorem save_items_duplicate_raises (st : RunSave.Store) (items : list RunSave.IngestItem) :
  ~ NoDup (map RunSave.r_doc_url (RunSave.make_rows items)) ->
  RunSave.save_items st items = PyRaise "APIError"%string.
Proof.
  intros Hd. unfold RunSave.save_items.
  destruct (RunSave.make_rows items) as [|r rs] eqn:E; [exfalso; apply Hd; constructor|].
  unfold RunSave.upsert. rewrite <- E.
  destruct (RunSave.has_dup (map RunSave.r_doc_url (RunSave.make_rows items))) eqn:D; [reflexivity|].
  apply BatchFacts.has_dup_false in D. exfalso. apply Hd. rewrite <- E. exact D.
Qed.

Lemma save_items_duplicate_raises_witness :
  ~ NoDup (map RunSave.r_doc_url (RunSave.make_rows [C2Data.c2_item "a"; C2Data.c2_item "b"])) /\
  RunSave.save_items C2Data.c2_store [C2Data.c2_item "a"; C2Data.c2_item "b"]%string = PyRaise "APIError"%string.
Proof.
  assert (Hd : ~ NoDup (map RunSave.r_doc_url (RunSave.make_rows [C2Data.c2_item "a"; C2Data.c2_item "b"]%string))).
  { intros H. apply BatchFacts.has_dup_false in H. vm_compute in H. discriminate H. }
  split; [exact Hd|]. exact (save_items_duplicate_raises _ _ Hd).
Defined.

(** A batch whose canonical [doc_url]s are distinct is written: the count
    returned is the number of items with a non-empty canonical [doc_url],
    every row built is stored as built, and a table with distinct
    [doc_url]s keeps them distinct. *)
Theorem save_items_batch (st : RunSave.Store) (items : list RunSave.IngestItem) :
  NoDup (map RunSave.r_doc_url (RunSave.make_rows items)) ->
  exists st',
    RunSave.save_items st items = PyOk (st', Z.of_nat (length (filter BatchFacts.keeps items))) /\
    (forall r, In r (RunSave.make_rows items) ->
       exists s, In s (RunSave.st_rows st') /\ RunSave.s_row s = r) /\
    (NoDup (map SaveFacts.sdoc (RunSave.st_rows st)) ->
       NoDup (map SaveFacts.sdoc (RunSave.st_rows st'))).
Proof.
  intros Hnd. rewrite <- BatchFacts.make_rows_length. unfold RunSave.save_items.
  destruct (RunSave.make_rows items) as [|r rs] eqn:E.
  - exists st. split; [reflexivity|]. split; [intros r []|auto].
  - unfold RunSave.upsert. rewrite <- E in Hnd |- *.
    replace (RunSave.has_dup (map RunSave.r_doc_url (RunSave.make_rows items))) with false
      by (symmetry; now apply BatchFacts.has_dup_false).
    exists (fold_left RunSave.upsert_one (RunSave.make_rows items) st). split; [reflexivity|].
    split; [now apply BatchFacts.fold_stores|]. apply BatchFacts.fold_nodup.
Qed.

Lemma save_items_batch_witness :
  NoDup (map RunSave.r_doc_url (RunSave.make_rows [C2Data.c2_item "a"; C2Data.c2_blank_item]%string)) /\
  exists st',
    RunSave.save_items C2Data.c2_store [C2Data.c2_item "a"; C2Data.c2_blank_item]%string =
      PyOk (st', Z.of_nat (length (filter BatchFacts.keeps [C2Data.c2_item "a"; C2Data.c2_blank_item]%string))) /\
    (forall r, In r (RunSave.make_rows [C2Data.c2_item "a"; C2Data.c2_blank_item]%string) ->
       exists s, In s (RunSave.st_rows st') /\ RunSave.s_row s = r) /\
    (NoDup (map SaveFacts.sdoc (RunSave.st_rows C2Data.c2_store)) ->
       NoDup (map SaveFacts.sdoc (RunSave.st_rows st'))).
Proof.
  assert (Hnd : NoDup (map RunSave.r_doc_url (RunSave.make_rows [C2Data.c2_item "a"; C2Data.c2_blank_item]%string))).
  { apply BatchFacts.has_dup_false. vm_compute. reflexivity. }
  split; [exact Hnd|]. exact (save_items_batch _ _ Hnd).
Defined.

(** Closes one path of [main_with_writes]. *)
Ltac run_log_case :=
  cbn [app fst snd];
  lazymatch goal with
  | |- exists r, (_ :: ?t)%list = _ :: r /\ _ => exists t
  end;
  split; [reflexivity|]; cbn [filter app RunLogFacts.is_mail_event length];
  split; [lia|];
  first
    [ reflexivity
    | lazymatch goal with
      | |- exists m o n, ?t = _ /\ _ => exists (removelast t)
      end;
      cbn [removelast]; do 2 eexists; split; [reflexivity|]; cbn; intuition (try discriminate; lia) ].

(** [main] as a whole, including failing [runs_log] writes: once the
    environment check and the insert of the ["started"] row pass, that
    insert is the first event and at most one mail (sent or dry-run) is
    produced.  When [main] exits with a code, its last event is the only
    [runs_log] update, that update records [ok_count]/[fail_count] 1/0, 0/1
    or 0/0, the exit code is the [fail_count] recorded, and [ok_count] 1 is
    recorded only after exactly one mail.  When an exception escapes (the
    update of the [except] branch failed), no update is recorded. *)
Theorem main_run_log_writes (args : Alerts.Args) (run_id : Z) (pending : py_result Z)
    (failed : py_result (list Alerts.FailedRun)) (silent : py_result (list Alerts.Alert))
    (mail update update_err : py_result unit) (finished_at : string) :
  let out := Alerts.main_with_writes true args (PyOk run_id) pending failed silent mail
               update update_err finished_at in
  exists rest,
    fst out = (Alerts.RunInserted "alert" 0 0 "started" :: rest)%list /\
    (length (filter RunLogFacts.is_mail_event rest) <= 1)%nat /\
    match snd out with
    | Alerts.ExitCode code =>
        exists mid ok notes,
          rest = (mid ++ [Alerts.RunUpdated run_id ok code notes finished_at])%list /\
          forallb (fun e => negb (RunLogFacts.is_run_event e)) mid = true /\
          ((ok = 1 /\ code = 0) \/ (ok = 0 /\ code = 1) \/ (ok = 0 /\ code = 0))%Z /\
          (ok = 1%Z -> length (filter RunLogFacts.is_mail_event mid) = 1%nat)
    | Alerts.Uncaught _ => forallb (fun e => negb (RunLogFacts.is_run_event e)) rest = true
    end.
Proof.
  cbv zeta. unfold Alerts.main_with_writes. cbn [negb].
  destruct pending as [p|e]; [|destruct update_err; run_log_case].
  destruct failed as [fl|e]; [|destruct update_err; run_log_case].
  destruct silent as [sl|e]; [|destruct update_err; run_log_case].
  destruct (_ && _); [destruct update as [[]|e]; [|destruct update_err]; run_log_case|].
  destruct (Alerts.arg_dry_run args); [|destruct mail as [[]|e]];
    [destruct update as [[]|e]; [|destruct update_err]; run_log_case
    |destruct update as [[]|e]; [|destruct update_err]; run_log_case
    |destruct update_err; run_log_case].
Qed.

(** With [--dry-run], [main] never sends a mail. *)
Theorem main_dry_run_never_mails (env_ok : bool) (args : Alerts.Args) (run_id : Z)
    (pending : py_result Z) (failed : py_result (list Alerts.FailedRun))
    (silent : py_result (list Alerts.Alert)) (mail : py_result unit) (finished_at : string) :
  Alerts.arg_dry_run args = true ->
  forall p f s,
    ~ In (Alerts.MailSent p f s) (fst (Alerts.main env_ok args run_id pending failed silent mail finished_at)).
Proof.
  intros Hd p f s. unfold Alerts.main.
  destruct env_ok; [|simpl; tauto]. cbn [negb].
  destruct pending as [p0|e]; [|simpl; intuition discriminate].
  destruct failed as [fl|e]; [|simpl; intuition discriminate].
  destruct silent as [sl|e]; [|simpl; intuition discriminate].
  destruct (_ && _); [simpl; intuition discriminate|].
  rewrite Hd. simpl. intuition discriminate.
Qed.

Lemma main_dry_run_never_mails_witness :
  Alerts.arg_dry_run (Alerts.mkArgs None 72 None 48 false true) = true /\
  forall p f s,
    ~ In (Alerts.MailSent p f s)
         (fst (Alerts.main true (Alerts.mkArgs None 72 None 48 false true) 7 (PyOk 3%Z) (PyOk [])
                 (PyOk AlertData.alerts6) (PyOk tt) "2023-11-14T22:13:20+00:00"%string)).
Proof.
  split; [reflexivity|].
  exact (main_dry_run_never_mails true (Alerts.mkArgs None 72 None 48 false true) 7 (PyOk 3%Z) (PyOk [])
           (PyOk AlertData.alerts6) (PyOk tt) "2023-11-14T22:13:20+00:00"%string eq_refl).
Defined.

(** [check_silent_sources] reports each source (country, authority,
    source URL) at most once, and every alert carries an aware last item
    time [t], the elapsed time [now - t], and that elapsed time strictly
    exceeds the alert's threshold. *)
Theorem check_silent_sources_alerts_distinct (fromisoformat : string -> option Alerts.datetime)
    (rows : list Alerts.DbRow) (dflt : Z) (ov : list (string * Z)) (now : Z)
    (alerts : list Alerts.Alert) :
  Alerts.check_silent_sources fromisoformat rows dflt ov now = PyOk alerts ->
  NoDup (map AlertFacts.alert_key alerts) /\
  Forall (fun a => exists t, Alerts.a_last_item_at a = Alerts.Aware t /\
                             Alerts.a_elapsed_us a = (now - t)%Z /\
                             (Alerts.a_threshold_h a * Alerts.us_per_hour < Alerts.a_elapsed_us a)%Z)
         alerts.
Proof.
  intros Hs. split.
  - exact (SilentFacts.silent_loop_keys now dflt ov _ alerts
             (AlertFacts.latest_by_source_nodup fromisoformat rows) Hs).
  - apply Forall_forall. intros a Ha.
    destruct (AlertFacts.silent_loop_sound now dflt ov _ alerts a Hs Ha) as (_ & _ & t & Ht & Hlt).
    destruct (SilentFacts.silent_loop_elapsed now dflt ov _ alerts a Hs Ha) as (t' & Ht' & He).
    rewrite Ht in Ht'. injection Ht' as <-. exists t. split; [exact Ht|]. split; [exact He|]. lia.
Qed.

Lemma check_silent_sources_alerts_distinct_witness :
  Alerts.check_silent_sources AlertData.fromiso0 AlertData.rows6 72 [] AlertData.now0 = PyOk AlertData.alerts6 /\
  NoDup (map AlertFacts.alert_key AlertData.alerts6) /\
  Forall (fun a => exists t, Alerts.a_last_item_at a = Alerts.Aware t /\
                             Alerts.a_elapsed_us a = (AlertData.now0 - t)%Z /\
                             (Alerts.a_threshold_h a * Alerts.us_per_hour < Alerts.a_elapsed_us a)%Z)
         AlertData.alerts6.
Proof.
  assert (Hs : Alerts.check_silent_sources AlertData.fromiso0 AlertData.rows6 72 [] AlertData.now0
               = PyOk AlertData.alerts6) by (vm_compute; reflexivity).
  split; [exact Hs|]. exact (check_silent_sources_alerts_distinct _ _ _ _ _ _ Hs).
Defined.

(** A source reported as silent at [now] is still reported at any later
    [now'] (same rows and thresholds), when both calls return. *)
Theorem check_silent_sources_monotone (fromisoformat : string -> option Alerts.datetime)
    (rows : list Alerts.DbRow) (dflt : Z) (ov : list (string * Z)) (now now' : Z)
    (alerts alerts' : list Alerts.Alert) (k : Alerts.Key) :
  Alerts.check_silent_sources fromisoformat rows dflt ov now = PyOk alerts ->
  Alerts.check_silent_sources fromisoformat rows dflt ov now' = PyOk alerts' ->
  (now <= now')%Z ->
  Alerts.flagged alerts k = true -> Alerts.flagged alerts' k = true.
Proof.
  intros Hs Hs' Hle Hf.
  apply AlertFacts.flagged_in in Hf as (a & Ha & Hk).
  destruct (AlertFacts.silent_loop_sound now dflt ov _ alerts a Hs Ha) as (Hin & Hthr & t & Ht & Hlt).
  rewrite Ht, Hk in Hin.
  apply (AlertFacts.check_flagged fromisoformat rows dflt ov now' alerts' k t Hs' Hin).
  rewrite <- Hk. unfold AlertFacts.alert_key. cbn [fst snd]. rewrite <- Hthr. lia.
Qed.

Lemma check_silent_sources_monotone_witness :
  Alerts.check_silent_sources AlertData.fromiso0 AlertData.rows6 72 [] AlertData.now0 = PyOk AlertData.alerts6 /\
  Alerts.check_silent_sources AlertData.fromiso0 AlertData.rows6 72 []
    (AlertData.now0 + Alerts.us_per_hour)%Z =
    PyOk (AlertData.result_or_nil (Alerts.check_silent_sources AlertData.fromiso0 AlertData.rows6 72 []
            (AlertData.now0 + Alerts.us_per_hour)%Z)) /\
  (AlertData.now0 <= AlertData.now0 + Alerts.us_per_hour)%Z /\
  Alerts.flagged AlertData.alerts6 AlertData.key6a = true /\
  Alerts.flagged (AlertData.result_or_nil (Alerts.check_silent_sources AlertData.fromiso0 AlertData.rows6 72 []
            (AlertData.now0 + Alerts.us_per_hour)%Z)) AlertData.key6a = true.
Proof.
  assert (Hs : Alerts.check_silent_sources AlertData.fromiso0 AlertData.rows6 72 [] AlertData.now0
               = PyOk AlertData.alerts6) by (vm_compute; reflexivity).
  assert (Hs' : Alerts.check_silent_sources AlertData.fromiso0 AlertData.rows6 72 []
                  (AlertData.now0 + Alerts.us_per_hour)%Z =
                PyOk (AlertData.result_or_nil (Alerts.check_silent_sources AlertData.fromiso0 AlertData.rows6 72 []
                  (AlertData.now0 + Alerts.us_per_hour)%Z))) by (vm_compute; reflexivity).
  assert (Hle : (AlertData.now0 <= AlertData.now0 + Alerts.us_per_hour)%Z)
    by (unfold Alerts.us_per_hour; lia).
  assert (Hf : Alerts.flagged AlertData.alerts6 AlertData.key6a = true) by (vm_compute; reflexivity).
  split; [exact Hs|]. split; [exact Hs'|]. split; [exact Hle|]. split; [exact Hf|].
  exact (check_silent_sources_monotone _ _ _ _ _ _ _ _ _ Hs Hs' Hle Hf).
Defined.
